(** * Office code-generation skill and Azure Function deploy action

    A shallow embedding of
    - [packages/vscode-extension/src/chat/officeCommon/skills/codeGenerator.ts]
      (class [CodeGenerator]: [invoke], [userInputBreakdownTaskAsync],
      [generateCode]), and
    - [packages/fx-core/src/component/resource/azureFunction.ts]
      (class [AzureFunctionResource]: the [execute] callback of [deploy]).

    JavaScript strings are sequences of UTF-16 code units, values coming out
    of [JSON.parse] are dynamically typed, numbers are modelled by exact
    rationals (rounding to binary64 is not modelled), and the remote chat
    model, the sample provider, the file system and the deployment API are
    oracles of an environment record.  Every effect the code performs on its
    collaborators is recorded in a trace. *)

From Stdlib Require Import NArith ZArith QArith String Ascii List Lia Bool.
From stdpp Require Import base option list gmap strings.

Local Open Scope N_scope.
Set Warnings "-register-all".

(** ** JavaScript strings *)

(** A JavaScript string: the list of its UTF-16 code units. *)
Abbreviation jsstring := (list N).

(** The code units of an ASCII literal. *)
Definition js (s : string) : jsstring :=
  (fun a => N_of_ascii a) <$> list_ascii_of_string s.
Arguments js : simpl never.

(** ECMAScript [WhiteSpace] and [LineTerminator] code points, the characters
    [String.prototype.trim] strips. *)
Definition isTrimmable (c : N) : bool :=
  ((9 <=? c) && (c <=? 13)) || (c =? 32) || (c =? 160) || (c =? 5760)
  || ((8192 <=? c) && (c <=? 8202)) || (c =? 8232) || (c =? 8233)
  || (c =? 8239) || (c =? 8287) || (c =? 12288) || (c =? 65279).

Fixpoint trimStart (s : jsstring) : jsstring :=
  match s with
  | c :: r => if isTrimmable c then trimStart r else s
  | [] => []
  end.

Definition trimEnd (s : jsstring) : jsstring := rev (trimStart (rev s)).

(** [s.trim()] *)
Definition trim (s : jsstring) : jsstring := trimEnd (trimStart s).

(** ** Regular expressions of the shape [/open([\s\S]*?)close/] *)

(** [strip_prefix p s] is [Some r] when [s = p ++ r]. *)
Fixpoint strip_prefix (p s : jsstring) : option jsstring :=
  match p, s with
  | [], _ => Some s
  | a :: p', b :: s' => if a =? b then strip_prefix p' s' else None
  | _ :: _, [] => None
  end.

(** The lazy group followed by the closing literal, matched at the current
    position: the group grows one code unit at a time until [close]
    follows. *)
Fixpoint lazy_group_then (close s : jsstring) : option jsstring :=
  match strip_prefix close s with
  | Some _ => Some []
  | None =>
      match s with
      | [] => None
      | c :: r => (fun body => c :: body) <$> lazy_group_then close r
      end
  end.

(** The pattern tried at the current position only. *)
Definition match_here (open close s : jsstring) : option jsstring :=
  match strip_prefix open s with
  | Some rest => lazy_group_then close rest
  | None => None
  end.

(** [s.match(/open([\s\S]*?)close/)]: the pattern is tried at every start
    position from the left; the result is capture group 1 of the first
    position where it matches, [None] standing for JavaScript's [null]. *)
Fixpoint regexp_match_group1 (open close s : jsstring) : option jsstring :=
  match match_here open close s with
  | Some body => Some body
  | None =>
      match s with
      | [] => None
      | _ :: r => regexp_match_group1 open close r
      end
  end.

Definition backticks : jsstring := js "```".
Definition fence_json : jsstring := js "```json".
Definition fence_typescript : jsstring := js "```typescript".

(** ** Dynamically typed values *)

(** The values [JSON.parse] can produce, and [undefined] for absent
    properties.  Object fields are kept in source order. *)
Inductive JsValue :=
| JUndefined
| JNull
| JBool (b : bool)
| JNum (q : Q)
| JStr (s : jsstring)
| JArr (items : list JsValue)
| JObj (fields : list (jsstring * JsValue)).

(** [!!v] *)
Definition truthy (v : JsValue) : bool :=
  match v with
  | JUndefined | JNull => false
  | JBool b => b
  | JNum q => negb (Qeq_bool q 0)
  | JStr s => negb (bool_decide (s = []))
  | JArr _ | JObj _ => true
  end.

(** Own property of an object literal; a later duplicate key wins, as in
    [JSON.parse]. *)
Fixpoint own_property (fields : list (jsstring * JsValue)) (key : jsstring)
  : option JsValue :=
  match fields with
  | [] => None
  | (k, v) :: rest =>
      match own_property rest key with
      | Some w => Some w
      | None => if bool_decide (k = key) then Some v else None
      end
  end.

(** [v.key] for a property name that is neither an array index, ["length"]
    nor a member of a built-in prototype (the five names read by the code
    generator are of that kind).  [None] is the [TypeError] raised on
    [null] and [undefined]. *)
Definition js_get (v : JsValue) (key : jsstring) : option JsValue :=
  match v with
  | JUndefined | JNull => None
  | JObj fields => Some (default JUndefined (own_property fields key))
  | _ => Some JUndefined
  end.

(** ** [JSON.parse] *)

Inductive Token :=
| TLBrace | TRBrace | TLBracket | TRBracket | TColon | TComma
| TString (s : jsstring)
| TNumber (q : Q)
| TTrue | TFalse | TNull.

(** Where the scanner is inside a number ([-? int frac? exp?]). *)
Inductive NumPhase :=
| PMinus      (* after [-], a digit must follow *)
| PZero       (* the integer part is the single digit 0 *)
| PInt        (* inside a non-zero integer part *)
| PDot        (* after [.], a digit must follow *)
| PFrac       (* inside the fraction digits *)
| PExp        (* after [e] or [E], a sign or a digit must follow *)
| PExpSign    (* after the exponent sign, a digit must follow *)
| PExpDigits. (* inside the exponent digits *)

Record NumAcc := {
  num_neg : bool;       (* a leading minus sign was read *)
  num_mant : N;         (* integer and fraction digits read as one number *)
  num_frac : N;         (* how many of them are fraction digits *)
  num_eneg : bool;      (* the exponent is negative *)
  num_exp : N           (* exponent digits *)
}.

Definition num_start (neg : bool) (d : N) : NumAcc :=
  {| num_neg := neg; num_mant := d; num_frac := 0; num_eneg := false; num_exp := 0 |}.

Definition digit (c : N) : option N :=
  if (48 <=? c) && (c <=? 57) then Some (c - 48) else None.

Definition hex_digit (c : N) : option N :=
  if (48 <=? c) && (c <=? 57) then Some (c - 48)
  else if (97 <=? c) && (c <=? 102) then Some (c - 87)
  else if (65 <=? c) && (c <=? 70) then Some (c - 55)
  else None.

Definition num_accepting (p : NumPhase) : bool :=
  match p with
  | PZero | PInt | PFrac | PExpDigits => true
  | _ => false
  end.

(** The number denoted by the characters read. *)
Definition num_value (a : NumAcc) : Q :=
  let m := if num_neg a then (- Z.of_N (num_mant a))%Z else Z.of_N (num_mant a) in
  let e := ((if num_eneg a then - Z.of_N (num_exp a) else Z.of_N (num_exp a))
            - Z.of_N (num_frac a))%Z in
  Qred (if (0 <=? e)%Z then (m * 10 ^ e)%Z # 1 else m # Z.to_pos (10 ^ (- e))).

Definition push_int (a : NumAcc) (d : N) : NumAcc :=
  {| num_neg := num_neg a; num_mant := num_mant a * 10 + d; num_frac := num_frac a;
     num_eneg := num_eneg a; num_exp := num_exp a |}.

Definition push_frac (a : NumAcc) (d : N) : NumAcc :=
  {| num_neg := num_neg a; num_mant := num_mant a * 10 + d; num_frac := num_frac a + 1;
     num_eneg := num_eneg a; num_exp := num_exp a |}.

Definition push_exp (a : NumAcc) (d : N) : NumAcc :=
  {| num_neg := num_neg a; num_mant := num_mant a; num_frac := num_frac a;
     num_eneg := num_eneg a; num_exp := num_exp a * 10 + d |}.

Definition set_eneg (a : NumAcc) : NumAcc :=
  {| num_neg := num_neg a; num_mant := num_mant a; num_frac := num_frac a;
     num_eneg := true; num_exp := num_exp a |}.

(** One more character of a number; [None] when [c] cannot continue it. *)
Definition num_step (p : NumPhase) (a : NumAcc) (c : N) : option (NumPhase * NumAcc) :=
  let is_e := (c =? 101) || (c =? 69) in
  match p with
  | PMinus =>
      match digit c with
      | Some d => Some (if d =? 0 then PZero else PInt, push_int a d)
      | None => None
      end
  | PZero =>
      if c =? 46 then Some (PDot, a) else if is_e then Some (PExp, a) else None
  | PInt =>
      match digit c with
      | Some d => Some (PInt, push_int a d)
      | None => if c =? 46 then Some (PDot, a) else if is_e then Some (PExp, a) else None
      end
  | PDot =>
      match digit c with Some d => Some (PFrac, push_frac a d) | None => None end
  | PFrac =>
      match digit c with
      | Some d => Some (PFrac, push_frac a d)
      | None => if is_e then Some (PExp, a) else None
      end
  | PExp =>
      match digit c with
      | Some d => Some (PExpDigits, push_exp a d)
      | None =>
          if c =? 43 then Some (PExpSign, a)
          else if c =? 45 then Some (PExpSign, set_eneg a)
          else None
      end
  | PExpSign | PExpDigits =>
      match digit c with Some d => Some (PExpDigits, push_exp a d) | None => None end
  end.

Inductive LexState :=
| LIdle
| LStr (buf : jsstring)                       (* inside a string; [buf] is reversed *)
| LEsc (buf : jsstring)                       (* after a backslash *)
| LUni (buf : jsstring) (more : nat) (acc : N) (* inside [\uXXXX], [more] digits to go *)
| LNum (p : NumPhase) (a : NumAcc)
| LWord (rest : jsstring) (tok : Token).      (* inside [true], [false], [null] *)

(** A character read between tokens: JSON white space is skipped, a
    punctuator is a token, anything else opens a token. *)
Definition idle_step (c : N) : option (option Token * LexState) :=
  if (c =? 9) || (c =? 10) || (c =? 13) || (c =? 32) then Some (None, LIdle)
  else if c =? 123 then Some (Some TLBrace, LIdle)
  else if c =? 125 then Some (Some TRBrace, LIdle)
  else if c =? 91 then Some (Some TLBracket, LIdle)
  else if c =? 93 then Some (Some TRBracket, LIdle)
  else if c =? 58 then Some (Some TColon, LIdle)
  else if c =? 44 then Some (Some TComma, LIdle)
  else if c =? 34 then Some (None, LStr [])
  else if c =? 45 then Some (None, LNum PMinus (num_start true 0))
  else if c =? 116 then Some (None, LWord (js "rue") TTrue)
  else if c =? 102 then Some (None, LWord (js "alse") TFalse)
  else if c =? 110 then Some (None, LWord (js "ull") TNull)
  else match digit c with
       | Some d => Some (None, LNum (if d =? 0 then PZero else PInt) (num_start false d))
       | None => None
       end.

(** The character denoted by a single-character escape. *)
Definition escape (c : N) : option N :=
  if c =? 34 then Some 34        (* quotation mark *)
  else if c =? 92 then Some 92   (* backslash *)
  else if c =? 47 then Some 47   (* slash *)
  else if c =? 98 then Some 8    (* b *)
  else if c =? 102 then Some 12  (* f *)
  else if c =? 110 then Some 10  (* n *)
  else if c =? 114 then Some 13  (* r *)
  else if c =? 116 then Some 9   (* t *)
  else None.

Definition cons_token (t : option Token) (ts : list Token) : list Token :=
  match t with Some t => t :: ts | None => ts end.

(** The token sequence of a JSON text; [None] is a [SyntaxError]. *)
Fixpoint lex (st : LexState) (s : jsstring) : option (list Token) :=
  match s with
  | [] =>
      match st with
      | LIdle => Some []
      | LNum p a => if num_accepting p then Some [TNumber (num_value a)] else None
      | _ => None
      end
  | c :: r =>
      match st with
      | LIdle =>
          match idle_step c with
          | Some (t, st') => cons_token t <$> lex st' r
          | None => None
          end
      | LStr buf =>
          if c =? 34 then (fun ts => TString (rev buf) :: ts) <$> lex LIdle r
          else if c =? 92 then lex (LEsc buf) r
          else if c <? 32 then None
          else lex (LStr (c :: buf)) r
      | LEsc buf =>
          if c =? 117 then lex (LUni buf 4 0) r
          else match escape c with
               | Some x => lex (LStr (x :: buf)) r
               | None => None
               end
      | LUni buf more acc =>
          match hex_digit c, more with
          | Some h, 1%nat => lex (LStr ((acc * 16 + h) :: buf)) r
          | Some h, S more' => lex (LUni buf more' (acc * 16 + h)) r
          | _, _ => None
          end
      | LNum p a =>
          match num_step p a c with
          | Some (p', a') => lex (LNum p' a') r
          | None =>
              if num_accepting p then
                match idle_step c with
                | Some (t, st') =>
                    (fun ts => TNumber (num_value a) :: cons_token t ts) <$> lex st' r
                | None => None
                end
              else None
          end
      | LWord rest tok =>
          match rest with
          | x :: [] => if c =? x then (fun ts => tok :: ts) <$> lex LIdle r else None
          | x :: rest' => if c =? x then lex (LWord rest' tok) r else None
          | [] => None
          end
      end
  end.

(** An enclosing array or object under construction (members reversed). *)
Inductive Frame :=
| InArr (done : list JsValue)
| InObj (done : list (jsstring * JsValue)) (key : jsstring).

Inductive Mode :=
| WantValue          (* a value must follow *)
| WantValueOrClose   (* just after an opening bracket *)
| WantKeyOrClose     (* just after an opening brace *)
| WantKey            (* after a comma inside an object *)
| WantColon (key : jsstring)
| AfterMember        (* after a member of the innermost frame *)
| Finished (v : JsValue).

(** A complete value [v] was read below the frames [stack]. *)
Definition deliver (stack : list Frame) (v : JsValue) : list Frame * Mode :=
  match stack with
  | [] => ([], Finished v)
  | InArr done :: up => (InArr (v :: done) :: up, AfterMember)
  | InObj done key :: up => (InObj ((key, v) :: done) key :: up, AfterMember)
  end.

Definition scalar (t : Token) : option JsValue :=
  match t with
  | TString s => Some (JStr s)
  | TNumber q => Some (JNum q)
  | TTrue => Some (JBool true)
  | TFalse => Some (JBool false)
  | TNull => Some JNull
  | _ => None
  end.

Definition parse_step (stack : list Frame) (m : Mode) (t : Token)
  : option (list Frame * Mode) :=
  match m with
  | WantValue | WantValueOrClose =>
      match t with
      | TLBracket => Some (InArr [] :: stack, WantValueOrClose)
      | TLBrace => Some (InObj [] [] :: stack, WantKeyOrClose)
      | TRBracket =>
          match m, stack with
          | WantValueOrClose, InArr [] :: up => Some (deliver up (JArr []))
          | _, _ => None
          end
      | _ => (fun v => deliver stack v) <$> scalar t
      end
  | WantKeyOrClose =>
      match t, stack with
      | TString k, _ => Some (stack, WantColon k)
      | TRBrace, InObj [] _ :: up => Some (deliver up (JObj []))
      | _, _ => None
      end
  | WantKey =>
      match t with
      | TString k => Some (stack, WantColon k)
      | _ => None
      end
  | WantColon k =>
      match t, stack with
      | TColon, InObj done _ :: up => Some (InObj done k :: up, WantValue)
      | _, _ => None
      end
  | AfterMember =>
      match t, stack with
      | TComma, InArr _ :: _ => Some (stack, WantValue)
      | TRBracket, InArr done :: up => Some (deliver up (JArr (rev done)))
      | TComma, InObj _ _ :: _ => Some (stack, WantKey)
      | TRBrace, InObj done _ :: up => Some (deliver up (JObj (rev done)))
      | _, _ => None
      end
  | Finished _ => None
  end.

Fixpoint parse_tokens (stack : list Frame) (m : Mode) (ts : list Token)
  : option JsValue :=
  match ts with
  | [] => match m with Finished v => Some v | _ => None end
  | t :: ts' =>
      match parse_step stack m t with
      | Some (stack', m') => parse_tokens stack' m' ts'
      | None => None
      end
  end.

(** [JSON.parse(text)]; [None] is the [SyntaxError] it throws. *)
Definition JSON_parse (text : jsstring) : option JsValue :=
  match lex LIdle text with
  | Some ts => parse_tokens [] WantValue ts
  | None => None
  end.

(** ** [path.join] (Node.js, POSIX flavour) *)

Fixpoint split_on (sep : N) (cur s : jsstring) : list jsstring :=
  match s with
  | [] => [rev cur]
  | c :: r => if c =? sep then rev cur :: split_on sep [] r else split_on sep (c :: cur) r
  end.

Fixpoint join_with (sep : jsstring) (parts : list jsstring) : jsstring :=
  match parts with
  | [] => []
  | [p] => p
  | p :: rest => p ++ sep ++ join_with sep rest
  end.

(** [normalizeString]: empty and [.] segments are dropped, [..] removes the
    segment before it, or is kept when there is none to remove and the path
    is relative.  [res] is the reversed list of segments kept so far. *)
Fixpoint normalize_segments (allowAboveRoot : bool) (res segs : list jsstring)
  : list jsstring :=
  match segs with
  | [] => rev res
  | seg :: rest =>
      if bool_decide (seg = []) || bool_decide (seg = js ".") then
        normalize_segments allowAboveRoot res rest
      else if bool_decide (seg = js "..") then
        match res with
        | top :: res' =>
            if bool_decide (top = js "..") then
              normalize_segments allowAboveRoot
                (if allowAboveRoot then seg :: res else res) rest
            else normalize_segments allowAboveRoot res' rest
        | [] =>
            normalize_segments allowAboveRoot
              (if allowAboveRoot then [seg] else []) rest
        end
      else normalize_segments allowAboveRoot (seg :: res) rest
  end.

Definition normalizeString (path : jsstring) (allowAboveRoot : bool) : jsstring :=
  join_with (js "/") (normalize_segments allowAboveRoot [] (split_on 47 [] path)).

(** [path.normalize] *)
Definition path_normalize (path : jsstring) : jsstring :=
  match path with
  | [] => js "."
  | first :: _ =>
      let isAbsolute := first =? 47 in
      let trailingSeparator := bool_decide (last path = Some 47) in
      let path' := normalizeString path (negb isAbsolute) in
      match path' with
      | [] => if isAbsolute then js "/" else if trailingSeparator then js "./" else js "."
      | _ :: _ =>
          let path'' := if trailingSeparator then path' ++ js "/" else path' in
          if isAbsolute then js "/" ++ path'' else path''
      end
  end.

(** The errors the modelled code can raise: the [TypeError] of the
    runtime, the two errors [execute] constructs itself, and the typed
    error of [CheckThrowSomethingMissing] for the key it was given. *)
Inductive Message := WorkingDirIsMissing.

Inductive JsError :=
| TypeError
| PreconditionError (message : Message)
| PackDirectoryExistenceError
| SomethingMissingError (name : string).

(** How a call ends: it returns, it throws, or a value that does not have
    its declared TypeScript type reached a typed place, where the model
    stops ([OutsideTypes]). *)
Inductive Outcome (A : Type) :=
| Returned (a : A)
| Threw (e : JsError)
| OutsideTypes.
Arguments Returned {A} a.
Arguments Threw {A} e.
Arguments OutsideTypes {A}.

(** The loop of [path.join]: every argument must be a string, the non-empty
    ones are joined with a slash. *)
Fixpoint join_args (joined : option jsstring) (args : list JsValue)
  : Outcome (option jsstring) :=
  match args with
  | [] => Returned joined
  | JStr arg :: rest =>
      join_args
        (match arg, joined with
         | [], _ => joined
         | _ :: _, None => Some arg
         | _ :: _, Some j => Some (j ++ js "/" ++ arg)
         end) rest
  | _ :: _ => Threw TypeError
  end.

(** [path.join(...args)] *)
Definition path_join (args : list JsValue) : Outcome jsstring :=
  match join_args None args with
  | Returned None => Returned (js ".")
  | Returned (Some joined) => Returned (path_normalize joined)
  | Threw e => Threw e
  | OutsideTypes => OutsideTypes
  end.

(** ** Computations with effects *)

(** A computation over a world [W]: it ends in an outcome and a new world. *)
Definition M (W A : Type) : Type := W -> Outcome A * W.

Definition ret {W A} (a : A) : M W A := fun w => (Returned a, w).

Definition bind {W A B} (c : M W A) (k : A -> M W B) : M W B :=
  fun w =>
    match c w with
    | (Returned a, w') => k a w'
    | (Threw e, w') => (Threw e, w')
    | (OutsideTypes, w') => (OutsideTypes, w')
    end.

Definition throw {W A} (e : JsError) : M W A := fun w => (Threw e, w).

Definition lift {W A} (o : Outcome A) : M W A := fun w => (o, w).

Definition gets {W A} (f : W -> A) : M W A := fun w => (Returned (f w), w).

Definition modify {W} (f : W -> W) : M W unit := fun w => (Returned tt, f w).

Declare Scope js_scope.
Delimit Scope js_scope with js.
Notation "x <- c ;; k" := (bind c (fun x => k))
  (at level 100, c at next level, right associativity) : js_scope.
Notation "c ;; k" := (bind c (fun _ => k))
  (at level 100, right associativity) : js_scope.

(** [`${v}`] and [String(v)] raise a [TypeError] on a value built by
    [JSON.parse] exactly when the conversion reaches an object whose own
    property [toString] hides the inherited method (no JSON value is
    callable, and the inherited [valueOf] returns the object itself);
    arrays convert their members, [null] members apart. *)
Fixpoint toString_throws (v : JsValue) : bool :=
  match v with
  | JObj fields => bool_decide (is_Some (own_property fields (js "toString")))
  | JArr items => existsb toString_throws items
  | _ => false
  end.

(** A number is falsy when it is absent or zero: [!m[k]]. *)
Definition falsy_number (o : option Q) : bool :=
  match o with
  | None => true
  | Some q => Qeq_bool q 0
  end.

(** [if (!m[k]) { m[k] = 0; }  m[k] += x;] *)
Definition measurement_add (k : string) (x : Q) (m : gmap string Q) : gmap string Q :=
  let m0 := if falsy_number (m !! k) then <[k := 0%Q]> m else m in
  match m0 !! k with
  | Some q => <[k := (q + x)%Q]> m0
  | None => m0 (* not reached: a falsy entry was just set to 0 *)
  end.

(** [if (!m[k]) { m[k] = x; } else { m[k] += x; }] *)
Definition measurement_accumulate (k : string) (x : Q) (m : gmap string Q)
  : gmap string Q :=
  match m !! k with
  | Some q => if Qeq_bool q 0 then <[k := x]> m else <[k := (q + x)%Q]> m
  | None => <[k := x]> m
  end.

(** Reading a dynamically typed value at its declared TypeScript type. *)
Definition as_string (v : JsValue) : Outcome jsstring :=
  match v with JStr s => Returned s | _ => OutsideTypes end.

Definition as_boolean (v : JsValue) : Outcome bool :=
  match v with JBool b => Returned b | _ => OutsideTypes end.

Definition as_number (v : JsValue) : Outcome Q :=
  match v with JNum q => Returned q | _ => OutsideTypes end.

Fixpoint as_strings (items : list JsValue) : Outcome (list jsstring) :=
  match items with
  | [] => Returned []
  | JStr s :: rest =>
      match as_strings rest with
      | Returned l => Returned (s :: l)
      | other => other
      end
  | _ :: _ => OutsideTypes
  end.

Definition as_string_array (v : JsValue) : Outcome (list jsstring) :=
  match v with JArr items => as_strings items | _ => OutsideTypes end.

(** ** The code generator skill *)

Module CodeGenerator.

Record ChatRequest := { prompt : jsstring }.

Inductive LanguageModelChatMessage :=
| LanguageModelChatSystemMessage (content : jsstring)
| LanguageModelChatUserMessage (content : jsstring).

Record Sample := { description : jsstring; codeSample : jsstring }.

Inductive ExecutionResultEnum := Success | Failure | Rejected.

Record TelemetryData := {
  properties : gmap string jsstring;
  measurements : gmap string Q
}.

(** Modelled from the spec: the class [Spec] ([./spec]) is not among the
    sources.  Section 3 describes it as the shared request-scoped structure
    carrying the host application, the complexity score, the custom-function
    flag, the collected sub-task strings, the generated code and the
    telemetry counters; the fields and their types are the ones
    [codeGenerator.ts] reads and writes. *)
Record Appendix := {
  host : jsstring;
  codeSnippet : jsstring;
  codeTaskBreakdown : list jsstring;
  isCustomFunction : bool;
  complexity : Q;
  telemetryData : TelemetryData
}.

Record Spec := { sections : list jsstring; appendix : Appendix }.

(** What the skill does to its collaborators, in order. *)
Inductive Event :=
| Progress (message : jsstring)
    (* [response.progress(message)] *)
| ChatCompletion (model : jsstring) (messages : list LanguageModelChatMessage)
    (* [getCopilotResponseAsString(model, messages, token)] *)
| SampleQuery (request : ChatRequest) (host prompt : jsstring) (k : N)
    (* [getTopKMostRelevantScenarioSampleCodes(request, token, host, prompt, k)] *)
| ConsoleLog
| ConsoleError.

(** The mutable [Spec] object shared by the stages, the trace of effects and
    the number of clock readings taken so far. *)
Record World := { spec : Spec; trace : list Event; clockReads : nat }.

(** Everything the skill imports or calls that is not in
    [codeGenerator.ts]: the telemetry keys ([../telemetryConsts]), the fixed
    prompt texts (template literals of the file, kept abstract), and the
    collaborators.  The chat model answers a request as a function of the
    model name and the messages; a failing request is not modelled. *)
Record Env := {
  MeasurementCodeGenAttemptCount : string;
  MeasurementCodeGenExecutionTimeInTotalSec : string;
  MeasurementScenarioBasedSampleMatchedCount : string;
  PropertySystemCodeGenIsCustomFunction : string;
  PropertySystemCodeGenResult : string;
  PropertySystemCodeGenTargetedOfficeHostApplication : string;
  MeasurementSystemCodegenTaskBreakdownAttemptFailedCount : string;
  (* lines 29-33 and 34-114 *)
  excelSystemPrompt : jsstring;
  cfSystemPrompt : jsstring;
  (* lines 224-242, as a function of [request.prompt] *)
  breakdownUserPrompt : jsstring -> jsstring;
  (* lines 243-269 *)
  breakdownSystemPrompt : jsstring;
  (* lines 314-339, as a function of [request.prompt], [host], the joined
     task list and the guidance text *)
  codegenUserPrompt : jsstring -> jsstring -> jsstring -> jsstring -> jsstring;
  (* lines 344-348 *)
  samplesSystemPrompt : jsstring;
  (* the remote chat model *)
  chatModel : jsstring -> list LanguageModelChatMessage -> jsstring;
  (* [SampleProvider.getInstance()]: a [Map] from API name to sample, in
     insertion order *)
  sampleProvider : ChatRequest -> jsstring -> jsstring -> N -> list (jsstring * Sample);
  getCodeGenerateGuidance : jsstring -> jsstring;
  correctPropertyLoadSpelling : jsstring -> jsstring;
  (* [performance.now()], by the number of earlier readings *)
  clock : nat -> Q
}.

Definition set_sections (x : list jsstring) (s : Spec) : Spec :=
  {| sections := x; appendix := appendix s |}.

Definition set_appendix (f : Appendix -> Appendix) (s : Spec) : Spec :=
  {| sections := sections s; appendix := f (appendix s) |}.

Definition set_host (x : jsstring) (a : Appendix) : Appendix :=
  {| host := x; codeSnippet := codeSnippet a; codeTaskBreakdown := codeTaskBreakdown a;
     isCustomFunction := isCustomFunction a; complexity := complexity a;
     telemetryData := telemetryData a |}.

Definition set_codeSnippet (x : jsstring) (a : Appendix) : Appendix :=
  {| host := host a; codeSnippet := x; codeTaskBreakdown := codeTaskBreakdown a;
     isCustomFunction := isCustomFunction a; complexity := complexity a;
     telemetryData := telemetryData a |}.

Definition set_codeTaskBreakdown (x : list jsstring) (a : Appendix) : Appendix :=
  {| host := host a; codeSnippet := codeSnippet a; codeTaskBreakdown := x;
     isCustomFunction := isCustomFunction a; complexity := complexity a;
     telemetryData := telemetryData a |}.

Definition set_isCustomFunction (x : bool) (a : Appendix) : Appendix :=
  {| host := host a; codeSnippet := codeSnippet a; codeTaskBreakdown := codeTaskBreakdown a;
     isCustomFunction := x; complexity := complexity a;
     telemetryData := telemetryData a |}.

Definition set_complexity (x : Q) (a : Appendix) : Appendix :=
  {| host := host a; codeSnippet := codeSnippet a; codeTaskBreakdown := codeTaskBreakdown a;
     isCustomFunction := isCustomFunction a; complexity := x;
     telemetryData := telemetryData a |}.

Definition set_measurements (f : gmap string Q -> gmap string Q) (a : Appendix) : Appendix :=
  {| host := host a; codeSnippet := codeSnippet a; codeTaskBreakdown := codeTaskBreakdown a;
     isCustomFunction := isCustomFunction a; complexity := complexity a;
     telemetryData := {| properties := properties (telemetryData a);
                         measurements := f (measurements (telemetryData a)) |} |}.

Definition set_property (k : string) (x : jsstring) (a : Appendix) : Appendix :=
  {| host := host a; codeSnippet := codeSnippet a; codeTaskBreakdown := codeTaskBreakdown a;
     isCustomFunction := isCustomFunction a; complexity := complexity a;
     telemetryData := {| properties := <[k := x]> (properties (telemetryData a));
                         measurements := measurements (telemetryData a) |} |}.

(** The condition of the first [if] of [invoke] (lines 137-141) on
    arbitrary values:
    [!!host || !!codeTaskBreakdown || codeTaskBreakdown.length == 0].
    The third operand is evaluated on falsy values only: reading [length]
    throws on [null] and [undefined], the empty string has length 0, and a
    number or boolean has no [length], and [undefined == 0] is false. *)
Definition breakdown_guard (host codeTaskBreakdown : JsValue) : Outcome bool :=
  if truthy host then Returned true
  else if truthy codeTaskBreakdown then Returned true
  else
    match codeTaskBreakdown with
    | JUndefined | JNull => Threw TypeError
    | JStr s => Returned (bool_decide (s = []))
    | JArr items => Returned (bool_decide (items = []))
    | JBool _ | JNum _ => Returned false
    | JObj _ => Returned false (* not reached: an object is truthy *)
    end.

(** The value selected by lines 290-296: the text handed to [JSON.parse]
    is the trimmed first capture group when the pattern matches, and the
    trimmed response otherwise; [None] is the [SyntaxError]. *)
Definition parse_response (copilotResponse : jsstring) : option JsValue :=
  match regexp_match_group1 fence_json backticks copilotResponse with
  | None => JSON_parse (trim copilotResponse)
  | Some group1 => JSON_parse (trim group1)
  end.

(** The [try] block of lines 289-301: [Some copilotRet] when it completes,
    [None] when the [catch] clause is entered.  Besides [JSON.parse], the
    log line of line 297 can throw: reading [complexity] of [null], or
    converting the complexity to a string. *)
Definition try_parse (copilotResponse : jsstring) : option JsValue :=
  match parse_response copilotResponse with
  | None => None
  | Some copilotRet =>
      match js_get copilotRet (js "complexity") with
      | None => None
      | Some c => if toString_throws c then None else Some copilotRet
      end
  end.

(** The sample rendered as an item of the system prompt (lines 375-378). *)
Definition render_sample (sample : Sample) : jsstring :=
  js "- " ++ description sample ++ js ":" ++ [10]
  ++ js "                              ```typescript" ++ [10]
  ++ js "                              " ++ codeSample sample ++ [10]
  ++ js "                              ```" ++ [10].

Section WithEnv.
Context (env : Env).
Local Open Scope js_scope.

Definition emit (e : Event) : M World unit :=
  modify (fun w => {| spec := spec w; trace := trace w ++ [e]; clockReads := clockReads w |}).

Definition update_spec (f : Spec -> Spec) : M World unit :=
  modify (fun w => {| spec := f (spec w); trace := trace w; clockReads := clockReads w |}).

Definition update_appendix (f : Appendix -> Appendix) : M World unit :=
  update_spec (set_appendix f).

Definition performance_now : M World Q :=
  fun w => (Returned (clock env (clockReads w)),
            {| spec := spec w; trace := trace w; clockReads := S (clockReads w) |}).

Definition getCopilotResponseAsString (model : jsstring)
    (messages : list LanguageModelChatMessage) : M World jsstring :=
  emit (ChatCompletion model messages) ;;
  ret (chatModel env model messages).

Definition getTopKMostRelevantScenarioSampleCodes (request : ChatRequest)
    (host prompt : jsstring) (k : N) : M World (list (jsstring * Sample)) :=
  emit (SampleQuery request host prompt k) ;;
  ret (sampleProvider env request host prompt k).

(** Lines 214-304.  [None] is the [null] result. *)
Definition userInputBreakdownTaskAsync (request : ChatRequest)
  : M World (option JsValue) :=
  let userPrompt := breakdownUserPrompt env (prompt request) in
  let defaultSystemPrompt := breakdownSystemPrompt env in
  let messages :=
    [LanguageModelChatSystemMessage defaultSystemPrompt;
     LanguageModelChatUserMessage userPrompt] in
  copilotResponse <- getCopilotResponseAsString (js "copilot-gpt-3.5-turbo") messages ;;
  match try_parse copilotResponse with
  | Some copilotRet => emit ConsoleLog ;; ret (Some copilotRet)
  | None => emit ConsoleError ;; ret None
  end.

(** The model named in the request of line 398. *)
Definition codegen_model (complexity : Q) : jsstring :=
  if Qle_bool 50 complexity then js "copilot-gpt-4" else js "copilot-gpt-3.5-turbo".

(** The items appended to the system prompt (lines 373-379). *)
Definition codeSnippets_of (scenarioSamples : list (jsstring * Sample)) : list jsstring :=
  (fun entry => render_sample (snd entry)) <$> scenarioSamples.

(** The three messages of lines 392-396. *)
Definition codegen_messages (request : ChatRequest) (host : jsstring)
    (isCustomFunctions : bool) (suggestedFunction : list jsstring)
    (scenarioSamples : list (jsstring * Sample)) : list LanguageModelChatMessage :=
  let userPrompt :=
    codegenUserPrompt env (prompt request) host
      (join_with [10] ((fun task => js "- " ++ task) <$> suggestedFunction))
      (getCodeGenerateGuidance env host) in
  let defaultSystemPrompt := samplesSystemPrompt env in
  let referenceUserPrompt : jsstring := [] in
  let '(referenceUserPrompt, defaultSystemPrompt) :=
    if bool_decide (host = js "Excel") then
      (if negb isCustomFunctions then excelSystemPrompt env else cfSystemPrompt env,
       defaultSystemPrompt)
    else (referenceUserPrompt, []) in
  let defaultSystemPrompt :=
    if (0 <? N.of_nat (length scenarioSamples)) then
      let codeSnippets := codeSnippets_of scenarioSamples in
      if (0 <? N.of_nat (length codeSnippets)) then
        defaultSystemPrompt ++ [10] ++ join_with [10] codeSnippets ++ [10; 10]
      else defaultSystemPrompt
    else defaultSystemPrompt in
  [LanguageModelChatSystemMessage referenceUserPrompt;
   LanguageModelChatSystemMessage defaultSystemPrompt;
   LanguageModelChatUserMessage userPrompt].

(** Lines 404-415: what [generateCode] returns for a response. *)
Definition extract_code (copilotResponse : jsstring) : option jsstring :=
  match regexp_match_group1 fence_typescript backticks copilotResponse with
  | None => None
  | Some group1 => Some (correctPropertyLoadSpelling env (trim group1))
  end.

(** Lines 306-416.  [None] is the [null] result. *)
Definition generateCode (request : ChatRequest) (host : jsstring)
    (isCustomFunctions : bool) (suggestedFunction : list jsstring)
  : M World (option jsstring) :=
  update_appendix
    (set_property (PropertySystemCodeGenTargetedOfficeHostApplication env) host) ;;
  update_appendix
    (set_property (PropertySystemCodeGenIsCustomFunction env)
       (if isCustomFunctions then js "true" else js "false")) ;;
  scenarioSamples <-
    getTopKMostRelevantScenarioSampleCodes request host (prompt request) 2 ;;
  update_appendix
    (set_measurements
       (measurement_add (MeasurementScenarioBasedSampleMatchedCount env)
          (if (0 <? N.of_nat (length scenarioSamples)) then 1 else 0)%Q)) ;;
  let messages :=
    codegen_messages request host isCustomFunctions suggestedFunction scenarioSamples in
  complexity <- gets (fun w => complexity (appendix (spec w))) ;;
  copilotResponse <- getCopilotResponseAsString (codegen_model complexity) messages ;;
  match extract_code copilotResponse with
  | None => emit ConsoleError ;; ret None
  | Some code => ret (Some code)
  end.

(** Lines 145-158: the breakdown produced nothing usable. *)
Definition breakdown_failed : M World (option ExecutionResultEnum) :=
  update_appendix
    (set_measurements
       (measurement_add (MeasurementSystemCodegenTaskBreakdownAttemptFailedCount env) 1)) ;;
  ret (Some Failure).

(** Lines 142-169, entered when the guard holds.  [Some r] is an early
    [return] with result [r]; [None] falls through to code generation. *)
Definition breakdown_stage (request : ChatRequest) : M World (option ExecutionResultEnum) :=
  emit (Progress (js "Identify code-generation scenarios...")) ;;
  breakdownResult <- userInputBreakdownTaskAsync request ;;
  match breakdownResult with
  | None => breakdown_failed
  | Some result =>
      if negb (truthy result) then breakdown_failed
      else
        shouldContinue <- lift (from_option Returned (Threw TypeError)
                                  (js_get result (js "shouldContinue"))) ;;
        if negb (truthy shouldContinue) then
          (* Reject will make the whole request rejected *)
          data <- lift (as_string_array (default JUndefined (js_get result (js "data")))) ;;
          update_spec (set_sections data) ;;
          ret (Some Rejected)
        else
          host <- lift (as_string (default JUndefined (js_get result (js "host")))) ;;
          update_appendix (set_host host) ;;
          data <- lift (as_string_array (default JUndefined (js_get result (js "data")))) ;;
          update_appendix (set_codeTaskBreakdown data) ;;
          customFunctions <-
            lift (as_boolean (default JUndefined (js_get result (js "customFunctions")))) ;;
          update_appendix (set_isCustomFunction customFunctions) ;;
          complexity <-
            lift (as_number (default JUndefined (js_get result (js "complexity")))) ;;
          update_appendix (set_complexity complexity) ;;
          ret None
  end.

(** Lines 172-211. *)
Definition codegen_stage (request : ChatRequest) (t0 : Q) : M World ExecutionResultEnum :=
  update_appendix
    (set_measurements (measurement_add (MeasurementCodeGenAttemptCount env) 1)) ;;
  progressMessageStr <- ret (js "generating code...") ;;
  complexity <- gets (fun w => complexity (appendix (spec w))) ;;
  progressMessageStr <-
    ret (if Qle_bool 50 complexity then
           js "This is a task with high complexity, may take a little bit longer..."
           ++ progressMessageStr
         else
           js "We should be able to generate the code in a short while..."
           ++ progressMessageStr) ;;
  emit (Progress progressMessageStr) ;;
  a <- gets (fun w => appendix (spec w)) ;;
  codeSnippet <- generateCode request (host a) (isCustomFunction a) (codeTaskBreakdown a) ;;
  t1 <- performance_now ;;
  duration <- ret ((t1 - t0) / 1000)%Q ;;
  update_appendix
    (set_measurements
       (measurement_accumulate (MeasurementCodeGenExecutionTimeInTotalSec env) duration)) ;;
  emit ConsoleLog ;;
  match codeSnippet with
  | Some (c :: cs) =>
      update_appendix (set_property (PropertySystemCodeGenResult env) (js "true")) ;;
      update_appendix (set_codeSnippet (c :: cs)) ;;
      ret Success
  | _ =>
      update_appendix (set_property (PropertySystemCodeGenResult env) (js "false")) ;;
      ret Failure
  end.

(** Lines 129-212.  The returned [spec] is the shared object, found in the
    final world. *)
Definition invoke (request : ChatRequest) : M World ExecutionResultEnum :=
  t0 <- performance_now ;;
  a <- gets (fun w => appendix (spec w)) ;;
  enter <- lift (breakdown_guard (JStr (host a)) (JArr (JStr <$> codeTaskBreakdown a))) ;;
  early <- (if enter : bool then breakdown_stage request else ret None) ;;
  match early with
  | Some result => ret result
  | None => codegen_stage request t0
  end.

End WithEnv.
End CodeGenerator.

(** ** The Azure Function resource *)

Module AzureFunctionResource.

(** [readonly name = "azure-function"] and the keys of [outputs]. *)
Definition name : string := "azure-function".
Definition outputs_resourceId_key : string := "resourceId".
Definition outputs_endpoint_key : string := "endpoint".

(** [InputsWithProjectPath]: [projectPath] is declared a string, any other
    property, [folder] among them, is of type [any]. *)
Record InputsWithProjectPath := { projectPath : jsstring; folder : JsValue }.

(** [ctx.envInfo.state]: per component, the outputs of provisioning. *)
Record ProvisionContextV3 := { envInfo_state : gmap string (gmap string jsstring) }.

Record Effect := { type : string; effect_name : string; remarks : jsstring }.

Inductive LogMessage := DeployingBot.

(** What [execute] does to its collaborators, in order. *)
Inductive Event :=
| LogInfo (message : LogMessage)
    (* [ctx.logProvider.info(message)] *)
| PathExists (path : jsstring)
    (* [fs.pathExists(path)] *)
| ZipFolder (dir prefix : jsstring)
    (* [utils.zipFolderAsync(dir, prefix)] *)
| AzureWebSiteDeploy (resourceId : option jsstring) (zipBuffer : list N).
    (* [azureWebSiteDeploy(resourceId, ctx.tokenProvider, zipBuffer)] *)

(** The file system and the archiver; failures of the archiver and of the
    deployment API themselves are not modelled. *)
Record Env := {
  fs_pathExists : jsstring -> bool;
  zip_of : jsstring -> jsstring -> list N
}.

(** Modelled from the spec: [CheckThrowSomethingMissing] is imported from
    [plugins/resource/bot/v3/error], which is not among the sources.
    Section 4.3: execute "raises typed errors when required state
    (endpoint, resource id) is absent from prior provisioning output". *)
Definition CheckThrowSomethingMissing {W} (key : string) (value : option jsstring)
  : M W unit :=
  match value with
  | Some _ => ret tt
  | None => throw (SomethingMissingError key)
  end.

Section WithEnv.
Context (env : Env).
Local Open Scope js_scope.

Definition emit (e : Event) : M (list Event) unit := modify (fun t => t ++ [e]).

Definition pathExists (path : jsstring) : M (list Event) bool :=
  emit (PathExists path) ;; ret (fs_pathExists env path).

Definition zipFolderAsync (dir prefix : jsstring) : M (list Event) (list N) :=
  emit (ZipFolder dir prefix) ;; ret (zip_of env dir prefix).

(** Reading [states[key]]: a [TypeError] when the component has no entry in
    the state, so that [states] is [undefined]. *)
Definition read_state (states : option (gmap string jsstring)) (key : string)
  : M (list Event) (option jsstring) :=
  match states with
  | Some st => ret (st !! key)
  | None => throw TypeError
  end.

(** The [execute] callback of the action returned by [deploy]
    (lines 93-124). *)
Definition deploy_execute (ctx : ProvisionContextV3) (inputs : InputsWithProjectPath)
  : M (list Event) (list Effect) :=
  emit (LogInfo DeployingBot) ;;
  (* Preconditions checking. *)
  workingDir <- lift (path_join [JStr (projectPath inputs); folder inputs]) ;;
  if negb (truthy (JStr workingDir)) then
    throw (PreconditionError WorkingDirIsMissing)
  else
    packDirExisted <- pathExists workingDir ;;
    if negb packDirExisted then throw PackDirectoryExistenceError
    else
      states <- ret (envInfo_state ctx !! name) ;;
      endpoint <- read_state states outputs_endpoint_key ;;
      CheckThrowSomethingMissing outputs_endpoint_key endpoint ;;
      resourceId <- read_state states outputs_resourceId_key ;;
      CheckThrowSomethingMissing outputs_resourceId_key resourceId ;;
      resourceId <- read_state states outputs_resourceId_key ;;
      zipBuffer <- zipFolderAsync workingDir [] ;;
      emit (AzureWebSiteDeploy resourceId zipBuffer) ;;
      ret [{| type := "service"; effect_name := "azure";
              remarks := js "deploy azure function in folder: " ++ workingDir |}].

End WithEnv.
End AzureFunctionResource.

(** ** Vocabulary of the statements *)

Import CodeGenerator.

(** [s] holds [open], [body] and [close] in a row, after the prefix [pre]. *)
Definition block_at (open close s pre body : jsstring) : Prop :=
  exists post, s = pre ++ open ++ body ++ close ++ post.

Definition has_fenced_block (open close s : jsstring) : Prop :=
  exists pre body, block_at open close s pre body.

(** The block that starts leftmost and, among those, has the shortest
    body. *)
Definition first_fenced_block (open close s body : jsstring) : Prop :=
  exists pre,
    block_at open close s pre body /\
    forall pre' body',
      block_at open close s pre' body' ->
      (length pre <= length pre')%nat /\
      (length pre' = length pre -> length body <= length body')%nat.

(** The models named by the chat requests of a trace, oldest first. *)
Definition requested_models (t : list Event) : list jsstring :=
  omap (fun e => match e with ChatCompletion m _ => Some m | _ => None end) t.

(** The numbers of samples asked for by the queries of a trace. *)
Definition requested_sample_counts (t : list Event) : list N :=
  omap (fun e => match e with SampleQuery _ _ _ k => Some k | _ => None end) t.

(** The two messages of the breakdown request (lines 272-275). *)
Definition breakdown_messages (env : Env) (request : ChatRequest)
  : list LanguageModelChatMessage :=
  [LanguageModelChatSystemMessage (breakdownSystemPrompt env);
   LanguageModelChatUserMessage (breakdownUserPrompt env (prompt request))].

(** The answer of the chat model to the breakdown request. *)
Definition breakdown_response (env : Env) (request : ChatRequest) : jsstring :=
  chatModel env (js "copilot-gpt-3.5-turbo") (breakdown_messages env request).

(** The samples [generateCode] receives, and the answer of the chat model
    to the request it sends. *)
Definition codegen_samples (env : Env) (request : ChatRequest) (host : jsstring)
  : list (jsstring * Sample) :=
  sampleProvider env request host (prompt request) 2.

Definition codegen_response (env : Env) (request : ChatRequest) (host : jsstring)
    (isCustomFunctions : bool) (suggestedFunction : list jsstring) (c : Q) : jsstring :=
  chatModel env (codegen_model c)
    (codegen_messages env request host isCustomFunctions suggestedFunction
       (codegen_samples env request host)).

(** Modelled from the spec: [SampleProvider] ([../samples/sampleProvider]) is
    not among the sources.  Section 4.2: "Fetches up to two most relevant
    static samples": asked for the top [k], the provider returns at most [k]
    entries. *)
Definition returns_at_most_k
    (provider : ChatRequest -> jsstring -> jsstring -> N -> list (jsstring * Sample))
  : Prop :=
  forall request host prompt k, (N.of_nat (length (provider request host prompt k)) <= k)%N.

(** The order of attempts section 4.1 of the specification describes: the
    whole trimmed response first, the fenced block only when that fails. *)
Definition parse_response_direct_first (copilotResponse : jsstring) : option JsValue :=
  match JSON_parse (trim copilotResponse) with
  | Some v => Some v
  | None =>
      match regexp_match_group1 fence_json backticks copilotResponse with
      | Some group1 => JSON_parse (trim group1)
      | None => None
      end
  end.

(** The appendix [generateCode] leaves behind. *)
Definition appendix_after_generateCode (env : Env) (request : ChatRequest)
    (h : jsstring) (cf : bool) (a : Appendix) : Appendix :=
  set_measurements
    (measurement_add (MeasurementScenarioBasedSampleMatchedCount env)
       (if (0 <? N.of_nat (length (codegen_samples env request h))) then 1 else 0)%Q)
    (set_property (PropertySystemCodeGenIsCustomFunction env)
       (if cf then js "true" else js "false")
       (set_property (PropertySystemCodeGenTargetedOfficeHostApplication env) h a)).

(** The text handed to [JSON.parse]: the trimmed body of the first fenced
    [json] block when the response holds one, the trimmed response
    otherwise. *)
Definition selected_text (copilotResponse text : jsstring) : Prop :=
  (exists body,
      first_fenced_block fence_json backticks copilotResponse body /\ text = trim body)
  \/ (~ has_fenced_block fence_json backticks copilotResponse
      /\ text = trim copilotResponse).

(** The world after the chat request of the breakdown and its log line. *)
Definition after_breakdown_request (env : Env) (request : ChatRequest) (w : World) : World :=
  {| spec := spec w;
     trace :=
       trace w ++
       [ChatCompletion (js "copilot-gpt-3.5-turbo") (breakdown_messages env request);
        match try_parse (breakdown_response env request) with
        | Some _ => ConsoleLog
        | None => ConsoleError
        end];
     clockReads := clockReads w |}.

(** The first clock reading of [invoke]. *)
Definition tick (w : World) : World :=
  {| spec := spec w; trace := trace w; clockReads := S (clockReads w) |}.

(** The world after the progress message and the chat request of the
    breakdown. *)
Definition after_breakdown (env : Env) (request : ChatRequest) (w : World) : World :=
  after_breakdown_request env request
    {| spec := spec w;
       trace := trace w ++ [Progress (js "Identify code-generation scenarios...")];
       clockReads := clockReads w |}.

(** Code generation has started in a trace when the sample provider was
    queried: the query is the first thing [generateCode] does to a
    collaborator. *)
Definition codegen_started (t : list Event) : bool :=
  existsb (fun e => match e with SampleQuery _ _ _ _ => true | _ => false end) t.

(** The counter of failed breakdowns in a world. *)
Definition failed_count (env : Env) (w : World) : option Q :=
  measurements (telemetryData (appendix (spec w)))
  !! MeasurementSystemCodegenTaskBreakdownAttemptFailedCount env.

(** The effects of [execute] that change something: the archive and the
    deployment. *)
Definition deploy_effects (t : list AzureFunctionResource.Event)
  : list AzureFunctionResource.Event :=
  List.filter (fun e => match e with
                        | AzureFunctionResource.ZipFolder _ _
                        | AzureFunctionResource.AzureWebSiteDeploy _ _ => true
                        | _ => false
                        end) t.

(** ** Concrete inputs *)

(** An ASCII literal in which every apostrophe stands for a quotation
    mark. *)
Definition json_text (s : string) : jsstring :=
  (fun c => if c =? 39 then 34 else c) <$> js s.

(** An environment for concrete runs: the chat model and the static samples
    are given, the provider returns the first [k] samples, the prompt texts
    are reduced to their variable parts and the telemetry keys are made up. *)
Definition example_env
    (respond : jsstring -> list LanguageModelChatMessage -> jsstring)
    (samples : list (jsstring * Sample)) : Env :=
  {| MeasurementCodeGenAttemptCount := "codegen-attempt-count";
     MeasurementCodeGenExecutionTimeInTotalSec := "codegen-execution-time";
     MeasurementScenarioBasedSampleMatchedCount := "sample-matched-count";
     PropertySystemCodeGenIsCustomFunction := "codegen-is-custom-function";
     PropertySystemCodeGenResult := "codegen-result";
     PropertySystemCodeGenTargetedOfficeHostApplication := "codegen-host";
     MeasurementSystemCodegenTaskBreakdownAttemptFailedCount := "breakdown-failed-count";
     excelSystemPrompt := js "excel";
     cfSystemPrompt := js "custom functions";
     breakdownUserPrompt := fun p => p;
     breakdownSystemPrompt := js "breakdown";
     codegenUserPrompt := fun p h tasks guidance => p ++ h ++ tasks ++ guidance;
     samplesSystemPrompt := js "samples";
     chatModel := respond;
     sampleProvider := fun _ _ _ k => take (N.to_nat k) samples;
     getCodeGenerateGuidance := fun _ => [];
     correctPropertyLoadSpelling := fun code => code;
     clock := fun n => inject_Z (Z.of_nat n) |}.

(** The appendix a fresh [Spec] starts with, at a given complexity. *)
Definition example_world (c : Q) (m : gmap string Q) : World :=
  {| spec := {| sections := [];
                appendix := {| host := []; codeSnippet := []; codeTaskBreakdown := [];
                               isCustomFunction := false; complexity := c;
                               telemetryData := {| properties := ∅; measurements := m |} |} |};
     trace := [];
     clockReads := 0 |}.

Definition example_request : ChatRequest := {| prompt := js "sum column A" |}.

Definition example_samples : list (jsstring * Sample) :=
  [(js "Range.values", {| description := js "read a range"; codeSample := js "r.load();" |});
   (js "Range.format", {| description := js "format a range"; codeSample := js "r.format;" |});
   (js "Table.add", {| description := js "add a table"; codeSample := js "t.add();" |})].

(** A chat model that accepts the request at a complexity of 60 when it is
    sent the two messages of the breakdown, and answers any other request
    with a fenced block of code. *)
Definition example_chat_env : Env :=
  example_env
    (fun _ messages =>
       match messages with
       | [_; _] =>
           json_text "{'host': 'Excel', 'shouldContinue': true, 'data': ['main'], 'complexity': 60, 'customFunctions': false}"
       | _ => js "Here it is: ```typescript let a = 1; ``` Enjoy."
       end)
    example_samples.

(** A file system in which exactly the listed paths exist; the archive of
    a folder is stood for by its path. *)
Definition example_fs (existing : list jsstring) : AzureFunctionResource.Env :=
  {| AzureFunctionResource.fs_pathExists := fun p => bool_decide (p ∈ existing);
     AzureFunctionResource.zip_of := fun dir _ => dir |}.

Definition example_inputs : AzureFunctionResource.InputsWithProjectPath :=
  {| AzureFunctionResource.projectPath := js "/home/me/app";
     AzureFunctionResource.folder := JStr (js "api") |}.

Definition example_context (outputs : list (string * jsstring))
  : AzureFunctionResource.ProvisionContextV3 :=
  {| AzureFunctionResource.envInfo_state :=
       {[ AzureFunctionResource.name := list_to_map outputs ]} |}.

(** ** Vocabulary of the further statements *)

(** The duration recorded by the code-generation stage, in seconds. *)
Definition codegen_duration (env : Env) (t0 : Q) (w : World) : Q :=
  ((clock env (clockReads w) - t0) / 1000)%Q.

(** The appendix the code-generation stage leaves behind when the chat
    model answered with [code]. *)
Definition appendix_after_codegen_stage (env : Env) (request : ChatRequest) (t0 : Q)
    (w : World) (code : option jsstring) (a : Appendix) : Appendix :=
  let a1 :=
    set_measurements
      (measurement_accumulate (MeasurementCodeGenExecutionTimeInTotalSec env)
         (codegen_duration env t0 w))
      (appendix_after_generateCode env request (host a) (isCustomFunction a)
         (set_measurements (measurement_add (MeasurementCodeGenAttemptCount env) 1) a)) in
  match code with
  | Some (c :: cs) =>
      set_codeSnippet (c :: cs) (set_property (PropertySystemCodeGenResult env) (js "true") a1)
  | _ => set_property (PropertySystemCodeGenResult env) (js "false") a1
  end.

(** The progress message of lines 176-184. *)
Definition codegen_progress (c : Q) : jsstring :=
  if Qle_bool 50 c then
    js "This is a task with high complexity, may take a little bit longer..."
    ++ js "generating code..."
  else
    js "We should be able to generate the code in a short while..."
    ++ js "generating code...".

(** The answer of the chat model to the code request of a world. *)
Definition codegen_response_of (env : Env) (request : ChatRequest) (a : Appendix) : jsstring :=
  codegen_response env request (host a) (isCustomFunction a) (codeTaskBreakdown a)
    (complexity a).

(** The world after a breakdown that was accepted with the given values. *)
Definition after_accepted_breakdown (env : Env) (request : ChatRequest) (w : World)
    (h : jsstring) (d : list jsstring) (cf : bool) (c : Q) : World :=
  {| spec :=
       set_appendix
         (fun a =>
            set_complexity c
              (set_isCustomFunction cf (set_codeTaskBreakdown d (set_host h a))))
         (spec w);
     trace := trace (after_breakdown env request w);
     clockReads := clockReads w |}.

(** The breakdown result [v] is accepted with the values [h], [d], [cf],
    [c]: it is truthy, its [shouldContinue] is truthy and its four other
    properties have their declared types. *)
Definition accepted_with (v : JsValue) (h : jsstring) (d : list jsstring) (cf : bool)
    (c : Q) : Prop :=
  truthy v = true
  /\ (exists sc, js_get v (js "shouldContinue") = Some sc /\ truthy sc = true)
  /\ as_string (default JUndefined (js_get v (js "host"))) = Returned h
  /\ as_string_array (default JUndefined (js_get v (js "data"))) = Returned d
  /\ as_boolean (default JUndefined (js_get v (js "customFunctions"))) = Returned cf
  /\ as_number (default JUndefined (js_get v (js "complexity"))) = Returned c.

(** A world whose stored breakdown (host, tasks, flag, complexity) is
    replaced. *)
Definition with_stored_breakdown (h : jsstring) (d : list jsstring) (cf : bool) (c : Q)
    (w : World) : World :=
  {| spec :=
       set_appendix
         (fun a =>
            set_complexity c
              (set_isCustomFunction cf (set_codeTaskBreakdown d (set_host h a))))
         (spec w);
     trace := trace w;
     clockReads := clockReads w |}.

(** The world after [n] calls of [invoke] in a row. *)
Definition invoke_repeatedly (env : Env) (request : ChatRequest) (n : nat) (w : World)
  : World :=
  Nat.iter n (fun w' => snd (invoke env request w')) w.

(** The [plan] callback of the action returned by [deploy] (lines 81-92):
    the effect it announces, without doing anything. *)
Definition deploy_plan (inputs : AzureFunctionResource.InputsWithProjectPath)
  : Outcome (list AzureFunctionResource.Effect) :=
  match path_join [JStr (AzureFunctionResource.projectPath inputs);
                   AzureFunctionResource.folder inputs] with
  | Returned dir =>
      Returned
        [{| AzureFunctionResource.type := "service";
            AzureFunctionResource.effect_name := "azure";
            AzureFunctionResource.remarks := js "deploy azure function in folder: " ++ dir |}]
  | Threw e => Threw e
  | OutsideTypes => OutsideTypes
  end.



(** ** The building blocks on small inputs *)

Example trim_strips_both_ends : trim ([9; 32] ++ js "a b" ++ [10; 160; 8232]) = js "a b".
Proof. vm_compute. reflexivity. Qed.

Example regexp_lazy_group_is_shortest :
  regexp_match_group1 fence_json backticks (js "x ```json a ``` b ``` c") = Some (js " a ").
Proof. vm_compute. reflexivity. Qed.

Example regexp_unclosed_fence :
  regexp_match_group1 fence_json backticks (js "x ```json a `` b") = None.
Proof. vm_compute. reflexivity. Qed.

Example regexp_typescript_is_no_json_fence :
  regexp_match_group1 fence_json backticks (js "```typescript let a; ```") = None.
Proof. vm_compute. reflexivity. Qed.

Example JSON_parse_object :
  JSON_parse (json_text " {'host': 'Excel', 'complexity': 2.5e1, 'data': ['a', 'b\nA'], 'ok': [true, false, null]} ")
  = Some (JObj [(js "host", JStr (js "Excel"));
                (js "complexity", JNum 25);
                (js "data", JArr [JStr (js "a"); JStr (js "b" ++ [10; 65])]);
                (js "ok", JArr [JBool true; JBool false; JNull])]).
Proof. vm_compute. reflexivity. Qed.

Example JSON_parse_rejects :
  JSON_parse (js "{host: 1}") = None /\ JSON_parse (js "[1,]") = None
  /\ JSON_parse (js "01") = None /\ JSON_parse (js "") = None
  /\ JSON_parse (js "1 2") = None /\ JSON_parse (js "nul") = None
  /\ JSON_parse (js "[1}") = None /\ JSON_parse (js "-") = None
  /\ JSON_parse (js "Sure, here is the plan.") = None.
Proof. vm_compute. repeat split. Qed.

Example JSON_parse_later_key_wins :
  (v ← JSON_parse (json_text "{'a': 1, 'b': 0.5, 'a': -2}"); js_get v (js "a"))
  = Some (JNum (-2)).
Proof. vm_compute. reflexivity. Qed.

Example path_join_examples :
  path_join [JStr (js "/home/me/app"); JStr (js "api")] = Returned (js "/home/me/app/api")
  /\ path_join [JStr (js "/a/b"); JStr (js "../c/")] = Returned (js "/a/c/")
  /\ path_join [JStr (js "a"); JStr (js "../..")] = Returned (js "..")
  /\ path_join [JStr []; JStr []] = Returned (js ".")
  /\ path_join [JStr (js "a"); JStr (js "..")] = Returned (js ".")
  /\ path_join [JStr (js "/"); JStr (js "..")] = Returned (js "/")
  /\ path_join [JStr (js "./"); JStr []] = Returned (js "./")
  /\ path_join [JStr (js "a"); JUndefined] = Threw TypeError.
Proof. vm_compute. repeat split. Qed.

Example breakdown_guard_examples :
  breakdown_guard (JStr []) (JArr []) = Returned true
  /\ breakdown_guard (JStr (js "Excel")) JUndefined = Returned true
  /\ breakdown_guard (JStr []) (JStr []) = Returned true
  /\ breakdown_guard JUndefined (JBool false) = Returned false
  /\ breakdown_guard JUndefined JNull = Threw TypeError.
Proof. vm_compute. repeat split. Qed.

(** A whole run of [invoke]: the breakdown accepts the request with a
    complexity of 60, the code is asked from the stronger model and found
    in the answer. *)
Example invoke_success_run :
  fst (invoke example_chat_env example_request (example_world 0 ∅)) = Returned Success
  /\ requested_models (trace (snd (invoke example_chat_env example_request (example_world 0 ∅))))
     = [js "copilot-gpt-3.5-turbo"; js "copilot-gpt-4"]
  /\ requested_sample_counts
       (trace (snd (invoke example_chat_env example_request (example_world 0 ∅))))
     = [2]
  /\ codeSnippet (appendix (spec (snd (invoke example_chat_env example_request
                                         (example_world 0 ∅)))))
     = js "let a = 1;"
  /\ host (appendix (spec (snd (invoke example_chat_env example_request
                                  (example_world 0 ∅)))))
     = js "Excel"
  /\ measurements
       (telemetryData (appendix (spec (snd (invoke example_chat_env example_request
                                              (example_world 0 ∅))))))
     !! "codegen-attempt-count" = Some 1%Q.
Proof. vm_compute. repeat split. Qed.

(** ** Facts about the pattern matcher *)

Lemma strip_prefix_Some p s r : strip_prefix p s = Some r <-> s = p ++ r.
Proof.
  revert s. induction p as [|a p IH]; intros s; simpl.
  - split; [intros [= ->]; reflexivity | intros ->; reflexivity].
  - destruct s as [|b s]; [split; discriminate|].
    destruct (N.eqb_spec a b) as [->|Hne].
    + rewrite IH. split; [intros ->; reflexivity | intros [= ->]; reflexivity].
    + split; [discriminate | intros H; injection H as H1 H2; congruence].
Qed.

Lemma strip_prefix_None p s : strip_prefix p s = None <-> forall r, s <> p ++ r.
Proof.
  split.
  - intros H r Hs. apply strip_prefix_Some in Hs. congruence.
  - intros H. destruct (strip_prefix p s) as [r|] eqn:E; [|reflexivity].
    apply strip_prefix_Some in E. destruct (H r E).
Qed.

Lemma lazy_group_then_Some close s body :
  lazy_group_then close s = Some body ->
  (exists post, s = body ++ close ++ post) /\
  (forall body' post', s = body' ++ close ++ post' -> length body <= length body')%nat.
Proof.
  revert body. induction s as [|c r IH]; intros body; simpl.
  - destruct (strip_prefix close []) as [post|] eqn:E; [|discriminate].
    intros [= <-]. apply strip_prefix_Some in E.
    split; [exists post; exact E | intros; simpl; lia].
  - destruct (strip_prefix close (c :: r)) as [post|] eqn:E.
    + intros [= <-]. apply strip_prefix_Some in E.
      split; [exists post; exact E | intros; simpl; lia].
    + destruct (lazy_group_then close r) as [b0|] eqn:El; [|discriminate].
      intros [= <-]. destruct (IH b0 eq_refl) as [[post Hpost] Hmin].
      split.
      * exists post. simpl. rewrite Hpost. reflexivity.
      * intros [|c' b'] post' Hs.
        -- simpl in Hs. apply strip_prefix_Some in Hs. congruence.
        -- injection Hs as -> Hr. simpl. apply le_n_S. eapply Hmin, Hr.
Qed.

Lemma lazy_group_then_None close s :
  lazy_group_then close s = None -> forall body post, s <> body ++ close ++ post.
Proof.
  induction s as [|c r IH]; simpl.
  - destruct (strip_prefix close []) eqn:E; [discriminate|].
    intros _ [|c b] post Hs; [|discriminate].
    simpl in Hs. apply strip_prefix_Some in Hs. congruence.
  - destruct (strip_prefix close (c :: r)) eqn:E; [discriminate|].
    destruct (lazy_group_then close r) eqn:El; [discriminate|].
    intros _ [|c' b] post Hs.
    + simpl in Hs. apply strip_prefix_Some in Hs. congruence.
    + injection Hs as -> Hr. exact (IH eq_refl b post Hr).
Qed.

Lemma match_here_Some open close s body :
  match_here open close s = Some body ->
  block_at open close s [] body /\
  (forall body', block_at open close s [] body' -> length body <= length body')%nat.
Proof.
  unfold match_here, block_at.
  destruct (strip_prefix open s) as [rest|] eqn:E; [|discriminate].
  apply strip_prefix_Some in E. subst s. intros H.
  destruct (lazy_group_then_Some _ _ _ H) as [[post ->] Hmin].
  split; [exists post; reflexivity|].
  intros body' [post' Hs]. simpl in Hs. apply app_inv_head in Hs.
  eapply Hmin, Hs.
Qed.

Lemma match_here_None open close s :
  match_here open close s = None -> forall body, ~ block_at open close s [] body.
Proof.
  unfold match_here, block_at. intros H body [post Hs]. simpl in Hs.
  destruct (strip_prefix open s) as [rest|] eqn:E.
  - apply strip_prefix_Some in E. rewrite E in Hs. apply app_inv_head in Hs.
    exact (lazy_group_then_None _ _ H _ _ Hs).
  - apply strip_prefix_Some in Hs. congruence.
Qed.

Lemma block_at_cons open close c s pre body :
  block_at open close s pre body <-> block_at open close (c :: s) (c :: pre) body.
Proof.
  unfold block_at. split; intros [post H]; exists post.
  - rewrite H. reflexivity.
  - injection H as H. exact H.
Qed.

(** The matcher finds the first block. *)
Lemma regexp_match_group1_Some open close s body :
  regexp_match_group1 open close s = Some body -> first_fenced_block open close s body.
Proof.
  revert body. induction s as [|c r IH]; intros body; simpl.
  - destruct (match_here open close []) as [b|] eqn:E; [|discriminate].
    intros [= <-]. destruct (match_here_Some _ _ _ _ E) as [Hb Hmin].
    exists []. split; [exact Hb|]. intros pre' body' Hb'. split; [simpl; lia|].
    intros Hlen. destruct pre'; [|discriminate]. apply Hmin, Hb'.
  - destruct (match_here open close (c :: r)) as [b|] eqn:E.
    + intros [= <-]. destruct (match_here_Some _ _ _ _ E) as [Hb Hmin].
      exists []. split; [exact Hb|]. intros pre' body' Hb'. split; [simpl; lia|].
      intros Hlen. destruct pre'; [|discriminate]. apply Hmin, Hb'.
    + intros H. destruct (IH body H) as (pre & Hb & Hmin).
      exists (c :: pre). split; [apply block_at_cons, Hb|].
      intros [|c' pre'] body' Hb'.
      * destruct (match_here_None _ _ _ E _ Hb').
      * assert (c' = c) as -> by (destruct Hb' as [post Hs]; injection Hs; auto).
        apply block_at_cons in Hb'. destruct (Hmin _ _ Hb') as [H1 H2].
        simpl. split; [lia | intros; apply H2; lia].
Qed.

Lemma regexp_match_group1_None open close s :
  regexp_match_group1 open close s = None <-> ~ has_fenced_block open close s.
Proof.
  split.
  - induction s as [|c r IH]; simpl.
    + destruct (match_here open close []) eqn:E; [discriminate|].
      intros _ ([|? ?] & body & Hb); [exact (match_here_None _ _ _ E _ Hb)|].
      destruct Hb as [post Hs]. discriminate.
    + destruct (match_here open close (c :: r)) eqn:E; [discriminate|].
      intros H ([|c' pre] & body & Hb); [exact (match_here_None _ _ _ E _ Hb)|].
      assert (c' = c) as -> by (destruct Hb as [post Hs]; injection Hs; auto).
      apply block_at_cons in Hb. apply (IH H). exists pre, body. exact Hb.
  - intros H. destruct (regexp_match_group1 open close s) as [body|] eqn:E; [|reflexivity].
    destruct (regexp_match_group1_Some _ _ _ _ E) as (pre & Hb & _).
    destruct H. exists pre, body. exact Hb.
Qed.

Lemma first_fenced_block_unique open close s body1 body2 :
  first_fenced_block open close s body1 -> first_fenced_block open close s body2 ->
  body1 = body2.
Proof.
  intros (pre1 & Hb1 & Hmin1) (pre2 & Hb2 & Hmin2).
  destruct (Hmin1 _ _ Hb2) as [Hp12 Hq12]. destruct (Hmin2 _ _ Hb1) as [Hp21 Hq21].
  assert (length pre1 = length pre2) as Hlen by lia.
  assert (length body1 = length body2) as Hlenb.
  { specialize (Hq12 (eq_sym Hlen)). specialize (Hq21 Hlen). lia. }
  destruct Hb1 as [post1 H1]. destruct Hb2 as [post2 H2]. rewrite H1 in H2.
  apply app_inj_1 in H2 as [_ H2]; [|exact Hlen].
  apply app_inv_head in H2. apply app_inj_1 in H2 as [H2 _]; [exact H2 | exact Hlenb].
Qed.

Lemma regexp_match_group1_first open close s body :
  regexp_match_group1 open close s = Some body <-> first_fenced_block open close s body.
Proof.
  split; [apply regexp_match_group1_Some|].
  intros H. destruct (regexp_match_group1 open close s) as [b|] eqn:E.
  - f_equal. eapply first_fenced_block_unique; [|exact H].
    apply regexp_match_group1_Some, E.
  - apply regexp_match_group1_None in E. destruct E.
    destruct H as (pre & Hb & _). exists pre, body. exact Hb.
Qed.

Lemma has_fenced_block_first open close s :
  has_fenced_block open close s -> exists body, first_fenced_block open close s body.
Proof.
  intros H. destruct (regexp_match_group1 open close s) as [b|] eqn:E.
  - exists b. apply regexp_match_group1_Some, E.
  - apply regexp_match_group1_None in E. contradiction.
Qed.

(** ** Facts about [generateCode] *)

Lemma complexity_after_generateCode env request h cf a :
  complexity (appendix_after_generateCode env request h cf a) = complexity a.
Proof. reflexivity. Qed.

(** One call of [generateCode], step by step: a sample query for two
    samples, one chat request, and the extraction of the answer. *)
Lemma generateCode_run env request h cf sf w :
  generateCode env request h cf sf w =
  (Returned (extract_code env
               (codegen_response env request h cf sf (complexity (appendix (spec w))))),
   {| spec := set_appendix (appendix_after_generateCode env request h cf) (spec w);
      trace :=
        trace w ++
        SampleQuery request h (prompt request) 2
        :: ChatCompletion (codegen_model (complexity (appendix (spec w))))
             (codegen_messages env request h cf sf (codegen_samples env request h))
        :: match extract_code env
                   (codegen_response env request h cf sf (complexity (appendix (spec w)))) with
           | None => [ConsoleError]
           | Some _ => []
           end;
      clockReads := clockReads w |}).
Proof.
  destruct w as [[secs a] t n].
  unfold codegen_response, appendix_after_generateCode, codegen_samples.
  cbv beta iota zeta delta
    [generateCode bind update_appendix update_spec modify gets ret
       getTopKMostRelevantScenarioSampleCodes getCopilotResponseAsString emit
       spec trace clockReads appendix set_appendix complexity set_measurements
       set_property].
  destruct (extract_code env _);
    cbv beta iota zeta delta [bind modify ret emit spec trace clockReads];
    rewrite <- !app_assoc; reflexivity.
Qed.

Lemma requested_models_app t1 t2 :
  requested_models (t1 ++ t2) = requested_models t1 ++ requested_models t2.
Proof. apply omap_app. Qed.

Lemma requested_sample_counts_app t1 t2 :
  requested_sample_counts (t1 ++ t2) = requested_sample_counts t1 ++ requested_sample_counts t2.
Proof. apply omap_app. Qed.

Lemma codegen_model_strong c : codegen_model c = js "copilot-gpt-4" <-> (50 <= c)%Q.
Proof.
  unfold codegen_model. rewrite <- Qle_bool_iff.
  destruct (Qle_bool 50 c); split; (reflexivity || discriminate).
Qed.

Lemma codegen_model_weak c : codegen_model c = js "copilot-gpt-3.5-turbo" <-> (c < 50)%Q.
Proof.
  unfold codegen_model. destruct (Qle_bool 50 c) eqn:E.
  - apply Qle_bool_iff in E. split; [discriminate|].
    intros H. destruct (Qlt_not_le _ _ H E).
  - split; [|reflexivity]. intros _. apply Qnot_le_lt. intros H.
    apply Qle_bool_iff in H. congruence.
Qed.

(** C1, as amended: the chat request of [generateCode] names
    [copilot-gpt-4] if and only if [spec.appendix.complexity] is at least
    50, and [copilot-gpt-3.5-turbo] if and only if it is below 50; it is the
    only chat request of the call. *)
Theorem generateCode_model_by_complexity env request h cf sf w :
  requested_models (trace (snd (generateCode env request h cf sf w))) =
    requested_models (trace w) ++ [codegen_model (complexity (appendix (spec w)))]
  /\ (codegen_model (complexity (appendix (spec w))) = js "copilot-gpt-4"
      <-> (50 <= complexity (appendix (spec w)))%Q)
  /\ (codegen_model (complexity (appendix (spec w))) = js "copilot-gpt-3.5-turbo"
      <-> (complexity (appendix (spec w)) < 50)%Q).
Proof.
  split; [|split; [apply codegen_model_strong | apply codegen_model_weak]].
  rewrite generateCode_run. cbn [snd trace].
  rewrite requested_models_app. f_equal.
  destruct (extract_code env _); reflexivity.
Qed.

(** C1, as stated, fails at a complexity of exactly 50: the score does not
    exceed 50 and still the request goes to [copilot-gpt-4]. *)
Lemma generateCode_model_at_50 :
  ~ (forall env request h cf sf w,
        requested_models (trace (snd (generateCode env request h cf sf w))) =
          requested_models (trace w) ++ [js "copilot-gpt-4"]
        <-> (50 < complexity (appendix (spec w)))%Q).
Proof.
  intros H.
  destruct (H (example_env (fun _ _ => []) []) example_request (js "Excel") false []
              (example_world 50 ∅)) as [H1 _].
  apply (Qlt_irrefl 50). apply H1. vm_compute. reflexivity.
Qed.

(** C4: [generateCode] returns [null] if and only if the response holds no
    fenced [typescript] block; when it holds one, the result is the body of
    the first such block, trimmed and passed through
    [correctPropertyLoadSpelling]. *)
Theorem generateCode_null_iff_no_typescript_block env request h cf sf w :
  (fst (generateCode env request h cf sf w) = Returned None
   <-> ~ has_fenced_block fence_typescript backticks
           (codegen_response env request h cf sf (complexity (appendix (spec w)))))
  /\ (forall body,
         first_fenced_block fence_typescript backticks
           (codegen_response env request h cf sf (complexity (appendix (spec w)))) body ->
         fst (generateCode env request h cf sf w) =
           Returned (Some (correctPropertyLoadSpelling env (trim body))))
  /\ (has_fenced_block fence_typescript backticks
        (codegen_response env request h cf sf (complexity (appendix (spec w)))) ->
      exists body,
        first_fenced_block fence_typescript backticks
          (codegen_response env request h cf sf (complexity (appendix (spec w)))) body).
Proof.
  rewrite generateCode_run. cbn [fst]. unfold extract_code.
  split; [|split].
  - rewrite <- regexp_match_group1_None.
    destruct (regexp_match_group1 _ _ _); split; (reflexivity || discriminate).
  - intros body Hb. apply regexp_match_group1_first in Hb. rewrite Hb. reflexivity.
  - apply has_fenced_block_first.
Qed.

(** A run of C4: the answer holds two fenced blocks; the result is the
    trimmed body of the first. *)
Lemma generateCode_null_iff_no_typescript_block_witness :
  first_fenced_block fence_typescript backticks
    (js "Sure: ```typescript let x = 1; ``` or ```typescript let y; ```")
    (js " let x = 1; ")
  /\ fst (generateCode
            (example_env
               (fun _ _ => js "Sure: ```typescript let x = 1; ``` or ```typescript let y; ```")
               [])
            example_request (js "Excel") false [] (example_world 0 ∅))
     = Returned (Some (js "let x = 1;")).
Proof.
  assert (first_fenced_block fence_typescript backticks
            (js "Sure: ```typescript let x = 1; ``` or ```typescript let y; ```")
            (js " let x = 1; ")) as Hb
    by (apply regexp_match_group1_first; vm_compute; reflexivity).
  split; [exact Hb|].
  exact (proj1 (proj2 (generateCode_null_iff_no_typescript_block
                         (example_env
                            (fun _ _ =>
                               js "Sure: ```typescript let x = 1; ``` or ```typescript let y; ```")
                            [])
                         example_request (js "Excel") false [] (example_world 0 ∅)))
           (js " let x = 1; ") Hb).
Defined.

(** C8: [generateCode] queries the sample provider once, for two samples,
    and with a provider that returns at most the number of samples it is
    asked for, at most two samples are rendered into the system prompt of
    the chat request. *)
Theorem generateCode_at_most_two_samples env request h cf sf w :
  returns_at_most_k (sampleProvider env) ->
  requested_sample_counts (trace (snd (generateCode env request h cf sf w))) =
    requested_sample_counts (trace w) ++ [2]
  /\ (exists tail,
        trace (snd (generateCode env request h cf sf w)) =
          trace w ++
          SampleQuery request h (prompt request) 2
          :: ChatCompletion (codegen_model (complexity (appendix (spec w))))
               (codegen_messages env request h cf sf
                  (sampleProvider env request h (prompt request) 2))
          :: tail)
  /\ (length (codeSnippets_of (sampleProvider env request h (prompt request) 2)) <= 2)%nat.
Proof.
  intros Hk. rewrite generateCode_run. cbn [snd trace]. split; [|split].
  - rewrite requested_sample_counts_app. f_equal.
    destruct (extract_code env _); reflexivity.
  - eexists. reflexivity.
  - unfold codeSnippets_of. rewrite length_fmap.
    specialize (Hk request h (prompt request) 2). lia.
Qed.

(** A run of C8: three static samples, a provider that returns the first
    [k] of them. *)
Lemma generateCode_at_most_two_samples_witness :
  returns_at_most_k (sampleProvider (example_env (fun _ _ => []) example_samples))
  /\ (length (codeSnippets_of
                (sampleProvider (example_env (fun _ _ => []) example_samples)
                   example_request (js "Excel") (prompt example_request) 2)) <= 2)%nat.
Proof.
  assert (returns_at_most_k (sampleProvider (example_env (fun _ _ => []) example_samples)))
    as Hk.
  { intros request host p k. simpl. rewrite length_take. lia. }
  split; [exact Hk|].
  exact (proj2 (proj2 (generateCode_at_most_two_samples
                         (example_env (fun _ _ => []) example_samples)
                         example_request (js "Excel") false [] (example_world 0 ∅) Hk))).
Defined.

(** ** Facts about the breakdown stage *)

Lemma userInputBreakdownTaskAsync_run env request w :
  userInputBreakdownTaskAsync env request w =
  (Returned (try_parse (breakdown_response env request)),
   after_breakdown_request env request w).
Proof.
  unfold after_breakdown_request, breakdown_response, breakdown_messages.
  cbv beta iota zeta delta
    [userInputBreakdownTaskAsync bind getCopilotResponseAsString emit modify ret
       spec trace clockReads].
  destruct (try_parse _);
    cbv beta iota zeta delta [bind modify ret emit spec trace clockReads];
    rewrite <- !app_assoc; reflexivity.
Qed.

Lemma selected_text_exists copilotResponse : exists text, selected_text copilotResponse text.
Proof.
  destruct (regexp_match_group1 fence_json backticks copilotResponse) as [body|] eqn:E.
  - exists (trim body). left. exists body. split; [|reflexivity].
    apply regexp_match_group1_first, E.
  - exists (trim copilotResponse). right. split; [|reflexivity].
    apply regexp_match_group1_None, E.
Qed.

Lemma parse_response_selected copilotResponse text :
  selected_text copilotResponse text -> parse_response copilotResponse = JSON_parse text.
Proof.
  unfold parse_response. intros [(body & Hb & ->) | [Hno ->]].
  - apply regexp_match_group1_first in Hb. rewrite Hb. reflexivity.
  - apply regexp_match_group1_None in Hno. rewrite Hno. reflexivity.
Qed.

(** C2, as amended: the fenced [json] block is looked for first; when the
    response holds one, the trimmed body of the first block is what is
    parsed, whether or not the whole response parses, and only a response
    without a fenced block is parsed directly (trimmed).  What the parse
    gives, checked by the log line, is the result. *)
Theorem userInputBreakdownTaskAsync_fence_first env request w :
  (forall body,
      first_fenced_block fence_json backticks (breakdown_response env request) body ->
      parse_response (breakdown_response env request) = JSON_parse (trim body))
  /\ (~ has_fenced_block fence_json backticks (breakdown_response env request) ->
      parse_response (breakdown_response env request)
      = JSON_parse (trim (breakdown_response env request)))
  /\ fst (userInputBreakdownTaskAsync env request w)
     = Returned
         (match parse_response (breakdown_response env request) with
          | Some copilotRet =>
              match js_get copilotRet (js "complexity") with
              | Some c => if toString_throws c then None else Some copilotRet
              | None => None
              end
          | None => None
          end).
Proof.
  split; [|split].
  - intros body Hb. apply parse_response_selected. left. exists body. auto.
  - intros Hno. apply parse_response_selected. right. auto.
  - rewrite userInputBreakdownTaskAsync_run. reflexivity.
Qed.

Lemma breakdown_guard_array h items : breakdown_guard h (JArr items) = Returned true.
Proof. unfold breakdown_guard. destruct (truthy h); reflexivity. Qed.

(** [invoke] is the breakdown stage, always entered, followed by an early
    return or by the code-generation stage. *)
Lemma invoke_stages env request w :
  invoke env request w =
  match breakdown_stage env request (tick w) with
  | (Returned (Some result), w') => (Returned result, w')
  | (Returned None, w') => codegen_stage env request (clock env (clockReads w)) w'
  | (Threw e, w') => (Threw e, w')
  | (OutsideTypes, w') => (OutsideTypes, w')
  end.
Proof.
  unfold invoke, tick.
  cbv beta iota zeta delta [bind performance_now gets lift].
  rewrite breakdown_guard_array.
  destruct (breakdown_stage env request _) as [[[r|]|e|] w']; reflexivity.
Qed.

Ltac run_breakdown_stage :=
  unfold breakdown_stage, after_breakdown;
  cbv beta iota zeta delta [bind emit modify];
  rewrite userInputBreakdownTaskAsync_run.

Lemma breakdown_stage_failed env request w :
  match try_parse (breakdown_response env request) with
  | Some result => truthy result = false
  | None => True
  end ->
  breakdown_stage env request w =
  (Returned (Some Failure),
   {| spec :=
        set_appendix
          (set_measurements
             (measurement_add
                (MeasurementSystemCodegenTaskBreakdownAttemptFailedCount env) 1))
          (spec (after_breakdown env request w));
      trace := trace (after_breakdown env request w);
      clockReads := clockReads (after_breakdown env request w) |}).
Proof.
  intros H. run_breakdown_stage.
  destruct (try_parse (breakdown_response env request)) as [v|]; [rewrite H|]; reflexivity.
Qed.

Lemma breakdown_stage_rejected env request w v d :
  try_parse (breakdown_response env request) = Some v ->
  js_get v (js "shouldContinue") = Some (JBool false) ->
  as_string_array (default JUndefined (js_get v (js "data"))) = Returned d ->
  breakdown_stage env request w =
  (Returned (Some Rejected),
   {| spec := set_sections d (spec (after_breakdown env request w));
      trace := trace (after_breakdown env request w);
      clockReads := clockReads (after_breakdown env request w) |}).
Proof.
  intros Hv Hsc Hd. run_breakdown_stage. rewrite Hv.
  assert (truthy v = true) as ->.
  { destruct v; try reflexivity; simpl in Hsc; discriminate. }
  cbv beta iota zeta delta [negb bind lift]. rewrite Hsc.
  cbn [from_option truthy]. rewrite Hd. reflexivity.
Qed.

Lemma breakdown_stage_trace env request w :
  trace (snd (breakdown_stage env request w)) = trace (after_breakdown env request w)
  /\ (fst (breakdown_stage env request w) = Returned None ->
      exists v sc,
        try_parse (breakdown_response env request) = Some v
        /\ js_get v (js "shouldContinue") = Some sc
        /\ truthy sc = true).
Proof.
  run_breakdown_stage.
  destruct (try_parse (breakdown_response env request)) as [v|] eqn:Hv;
    [|split; [reflexivity | discriminate]].
  destruct (truthy v) eqn:Htv; [|split; [reflexivity | discriminate]].
  cbv beta iota zeta delta [negb bind lift].
  destruct (js_get v (js "shouldContinue")) as [sc|] eqn:Hsc;
    [|split; [reflexivity | discriminate]].
  cbn [from_option].
  destruct (truthy sc) eqn:Htsc.
  - destruct (as_string _); [|split; [reflexivity | discriminate]..].
    cbv beta iota zeta delta [update_appendix update_spec modify].
    destruct (as_string_array _); [|split; [reflexivity | discriminate]..].
    destruct (as_boolean _); [|split; [reflexivity | discriminate]..].
    destruct (as_number _); [|split; [reflexivity | discriminate]..].
    split; [reflexivity|]. intros _. exists v, sc. auto.
  - destruct (as_string_array _); split; (reflexivity || discriminate).
Qed.

Lemma codegen_stage_trace env request t0 w :
  exists tail,
    trace (snd (codegen_stage env request t0 w)) =
    trace w ++
    Progress
      (if Qle_bool 50 (complexity (appendix (spec w))) then
         js "This is a task with high complexity, may take a little bit longer..."
         ++ js "generating code..."
       else
         js "We should be able to generate the code in a short while..."
         ++ js "generating code...")
    :: SampleQuery request (host (appendix (spec w))) (prompt request) 2
    :: tail.
Proof.
  destruct w as [[secs [h cs ctb cf c td]] t n].
  unfold codegen_stage.
  cbv beta iota zeta delta
    [bind update_appendix update_spec modify gets ret emit performance_now
       spec trace clockReads appendix set_appendix complexity host isCustomFunction
       codeTaskBreakdown set_measurements].
  rewrite generateCode_run.
  cbv beta iota zeta delta
    [bind update_appendix update_spec modify gets ret emit performance_now
       spec trace clockReads appendix set_appendix complexity host isCustomFunction
       codeTaskBreakdown set_measurements].
  destruct (extract_code env _) as [[|x xs]|];
    cbv beta iota zeta delta
      [bind update_appendix update_spec modify gets ret emit snd trace];
    rewrite <- !app_assoc; eexists; reflexivity.
Qed.

Lemma measurement_add_lookup k x (m : gmap string Q) :
  measurement_add k x m !! k =
  Some ((match m !! k with Some q => if Qeq_bool q 0 then 0 else q | None => 0 end) + x)%Q.
Proof.
  unfold measurement_add. destruct (m !! k) as [q|] eqn:E; simpl.
  - destruct (Qeq_bool q 0).
    + rewrite !lookup_insert_eq. reflexivity.
    + rewrite E, lookup_insert_eq. reflexivity.
  - rewrite !lookup_insert_eq. reflexivity.
Qed.

Lemma measurement_add_other k k' x (m : gmap string Q) :
  k <> k' -> measurement_add k x m !! k' = m !! k'.
Proof.
  intros Hne. unfold measurement_add.
  destruct (falsy_number (m !! k)).
  - rewrite lookup_insert_eq, !lookup_insert_ne by exact Hne. reflexivity.
  - destruct (m !! k); [rewrite lookup_insert_ne by exact Hne|]; reflexivity.
Qed.

(** [JSON.parse] never yields [undefined]. *)
Lemma deliver_defined stack v stack' w :
  v <> JUndefined -> deliver stack v = (stack', Finished w) -> w <> JUndefined.
Proof.
  intros Hv. destruct stack as [|[done|done key] up]; simpl; intros [= ? ?]; congruence.
Qed.

Lemma parse_step_defined stack m t stack' w :
  parse_step stack m t = Some (stack', Finished w) -> w <> JUndefined.
Proof.
  intros H.
  destruct m, t; simpl in H; try discriminate H;
    repeat match type of H with
           | context [match ?x with _ => _ end] =>
               destruct x; simpl in H; try discriminate H
           end;
    injection H as H; (eapply deliver_defined; [|exact H]; discriminate).
Qed.

Lemma parse_tokens_defined ts stack m :
  (forall w, m = Finished w -> w <> JUndefined) ->
  parse_tokens stack m ts <> Some JUndefined.
Proof.
  revert stack m. induction ts as [|t ts IH]; intros stack m Hm; simpl.
  - destruct m; try discriminate. intros [= ->]. exact (Hm _ eq_refl eq_refl).
  - destruct (parse_step stack m t) as [[stack' m']|] eqn:E; [|discriminate].
    apply IH. intros w ->. eapply parse_step_defined, E.
Qed.

Lemma JSON_parse_defined text : JSON_parse text <> Some JUndefined.
Proof.
  unfold JSON_parse. destruct (lex LIdle text); [|discriminate].
  apply parse_tokens_defined. discriminate.
Qed.

(** A run of C2: the plan comes in a fenced block inside prose; the body
    of the block is what is parsed. *)
Lemma userInputBreakdownTaskAsync_fence_first_witness :
  first_fenced_block fence_json backticks
    (js "Here is the plan: ```json [1, 2] ``` Done.") (js " [1, 2] ")
  /\ parse_response
       (breakdown_response
          (example_env (fun _ _ => js "Here is the plan: ```json [1, 2] ``` Done.") [])
          example_request)
     = Some (JArr [JNum 1; JNum 2]).
Proof.
  assert (first_fenced_block fence_json backticks
            (js "Here is the plan: ```json [1, 2] ``` Done.") (js " [1, 2] ")) as Hb
    by (apply regexp_match_group1_first; vm_compute; reflexivity).
  split; [exact Hb|].
  exact (proj1 (userInputBreakdownTaskAsync_fence_first
                  (example_env (fun _ _ => js "Here is the plan: ```json [1, 2] ``` Done.") [])
                  example_request (example_world 0 ∅))
           (js " [1, 2] ") Hb).
Defined.

Lemma try_parse_selected copilotResponse text :
  selected_text copilotResponse text ->
  try_parse copilotResponse =
  match JSON_parse text with
  | Some copilotRet =>
      match js_get copilotRet (js "complexity") with
      | Some c => if toString_throws c then None else Some copilotRet
      | None => None
      end
  | None => None
  end.
Proof. intros H. unfold try_parse. rewrite (parse_response_selected _ _ H). reflexivity. Qed.

(** C2, as stated, fails on a response that is itself a JSON object and
    quotes a fenced block inside a string: the direct parse of the whole
    response succeeds, and yet the result is the parsed body of the
    block. *)
Lemma fenced_block_parsed_before_whole_response :
  JSON_parse (trim (json_text "{'shouldContinue': true, 'data': ['Return ```json [] ``` from main']}"))
  = Some (JObj [(js "shouldContinue", JBool true);
                (js "data", JArr [JStr (js "Return ```json [] ``` from main")])])
  /\ fst (userInputBreakdownTaskAsync
            (example_env
               (fun _ _ =>
                  json_text "{'shouldContinue': true, 'data': ['Return ```json [] ``` from main']}")
               [])
            example_request (example_world 0 ∅))
     = Returned (Some (JArr []))
  /\ parse_response
       (json_text "{'shouldContinue': true, 'data': ['Return ```json [] ``` from main']}")
     <> parse_response_direct_first
          (json_text "{'shouldContinue': true, 'data': ['Return ```json [] ``` from main']}").
Proof. split; [|split]; vm_compute; (reflexivity || discriminate). Qed.

(** C3, as amended: the result is [null] exactly when the text handed to
    [JSON.parse] (the trimmed body of the first fenced [json] block when the
    response holds one, the trimmed response otherwise) is not valid JSON,
    is the JSON value [null], or carries a complexity that cannot be
    converted to a string for the log line; otherwise the result is the
    parsed value.  On a [null] result [invoke] returns [Failure], adds one to
    the counter of failed breakdowns (counting from 0 when the counter is
    absent or zero), leaves the rest of [spec] alone and sends no other
    request to the chat model. *)
Theorem userInputBreakdownTaskAsync_null_result env request w :
  (forall text,
      selected_text (breakdown_response env request) text ->
      (fst (userInputBreakdownTaskAsync env request w) = Returned None
       <-> JSON_parse text = None
           \/ JSON_parse text = Some JNull
           \/ exists v c,
                JSON_parse text = Some v /\ js_get v (js "complexity") = Some c
                /\ toString_throws c = true))
  /\ (forall text v,
         selected_text (breakdown_response env request) text ->
         JSON_parse text = Some v ->
         fst (userInputBreakdownTaskAsync env request w) <> Returned None ->
         fst (userInputBreakdownTaskAsync env request w) = Returned (Some v))
  /\ (fst (userInputBreakdownTaskAsync env request w) = Returned None ->
      invoke env request w =
        (Returned Failure,
         {| spec :=
              set_appendix
                (set_measurements
                   (measurement_add
                      (MeasurementSystemCodegenTaskBreakdownAttemptFailedCount env) 1))
                (spec w);
            trace :=
              trace w ++
              [Progress (js "Identify code-generation scenarios...");
               ChatCompletion (js "copilot-gpt-3.5-turbo") (breakdown_messages env request);
               ConsoleError];
            clockReads := S (clockReads w) |})
      /\ failed_count env (snd (invoke env request w)) =
         Some ((match failed_count env w with
                | Some q => if Qeq_bool q 0 then 0 else q
                | None => 0
                end) + 1)%Q).
Proof.
  rewrite userInputBreakdownTaskAsync_run. cbn [fst]. split; [|split].
  - intros text Hsel. rewrite (try_parse_selected _ _ Hsel).
    destruct (JSON_parse text) as [v|] eqn:E; [|split; [auto | reflexivity]].
    destruct (js_get v (js "complexity")) as [c|] eqn:G.
    + destruct (toString_throws c) eqn:T.
      * split; [intros _; right; right; eauto | reflexivity].
      * split; [discriminate|].
        intros [H | [H | (v' & c' & H1 & H2 & H3)]]; [discriminate | |].
        -- injection H as ->. discriminate G.
        -- injection H1 as <-. congruence.
    + split; [|reflexivity]. intros _. right. left.
      destruct v; try discriminate G; [|reflexivity].
      destruct (JSON_parse_defined text E).
  - intros text v Hsel E. rewrite (try_parse_selected _ _ Hsel), E.
    destruct (js_get v _) as [c|]; [destruct (toString_throws c)|]; congruence.
  - intros Hnull. injection Hnull as Hnull.
    assert (invoke env request w =
            (Returned Failure,
             {| spec :=
                  set_appendix
                    (set_measurements
                       (measurement_add
                          (MeasurementSystemCodegenTaskBreakdownAttemptFailedCount env) 1))
                    (spec w);
                trace :=
                  trace w ++
                  [Progress (js "Identify code-generation scenarios...");
                   ChatCompletion (js "copilot-gpt-3.5-turbo")
                     (breakdown_messages env request);
                   ConsoleError];
                clockReads := S (clockReads w) |})) as Hrun.
    { rewrite invoke_stages, breakdown_stage_failed by (rewrite Hnull; exact I).
      unfold after_breakdown, after_breakdown_request, tick. rewrite Hnull.
      cbn [spec trace clockReads]. rewrite <- app_assoc. reflexivity. }
    split; [exact Hrun|]. rewrite Hrun. unfold failed_count.
    destruct w as [[secs [h cs ctb cf c [ps ms]]] t n].
    cbn [snd spec appendix set_appendix set_measurements telemetryData measurements].
    apply measurement_add_lookup.
Qed.

(** C3, as stated, fails on three responses, each of them valid JSON with a
    [null] result.  The response [null] parses to [null].  A response that
    is a JSON object and quotes a fenced block that is not JSON inside a
    string parses as a whole, and only the block is parsed.  A response
    whose complexity is an object with a property [toString] parses, and
    the log line of line 297 throws on it. *)
Lemma valid_json_response_yields_null :
  (JSON_parse (trim (js "null")) = Some JNull
   /\ fst (userInputBreakdownTaskAsync (example_env (fun _ _ => js "null") [])
             example_request (example_world 0 ∅))
      = Returned None)
  /\ (JSON_parse
        (trim (json_text "{'shouldContinue': false, 'data': ['Never put ```json in ``` here']}"))
      = Some (JObj [(js "shouldContinue", JBool false);
                    (js "data", JArr [JStr (js "Never put ```json in ``` here")])])
      /\ fst (userInputBreakdownTaskAsync
                (example_env
                   (fun _ _ =>
                      json_text "{'shouldContinue': false, 'data': ['Never put ```json in ``` here']}")
                   [])
                example_request (example_world 0 ∅))
         = Returned None)
  /\ (JSON_parse (trim (json_text "{'shouldContinue': true, 'complexity': {'toString': 1}}"))
      = Some (JObj [(js "shouldContinue", JBool true);
                    (js "complexity", JObj [(js "toString", JNum 1)])])
      /\ fst (userInputBreakdownTaskAsync
                (example_env
                   (fun _ _ =>
                      json_text "{'shouldContinue': true, 'complexity': {'toString': 1}}")
                   [])
                example_request (example_world 0 ∅))
         = Returned None).
Proof. repeat split; vm_compute; reflexivity. Qed.

(** A run of C3: the chat model answers in prose; [invoke] fails and the
    counter of failed breakdowns, absent before, is 1. *)
Lemma userInputBreakdownTaskAsync_null_result_witness :
  fst (userInputBreakdownTaskAsync (example_env (fun _ _ => js "I cannot help.") [])
         example_request (example_world 0 ∅))
  = Returned None
  /\ fst (invoke (example_env (fun _ _ => js "I cannot help.") [])
            example_request (example_world 0 ∅))
     = Returned Failure
  /\ failed_count (example_env (fun _ _ => js "I cannot help.") [])
       (snd (invoke (example_env (fun _ _ => js "I cannot help.") [])
               example_request (example_world 0 ∅)))
     = Some 1%Q.
Proof.
  assert (fst (userInputBreakdownTaskAsync (example_env (fun _ _ => js "I cannot help.") [])
                 example_request (example_world 0 ∅))
          = Returned None) as Hnull by (vm_compute; reflexivity).
  split; [exact Hnull|].
  destruct (userInputBreakdownTaskAsync_null_result
              (example_env (fun _ _ => js "I cannot help.") [])
              example_request (example_world 0 ∅)) as (_ & _ & Hc).
  destruct (Hc Hnull) as [Hrun Hcount].
  split; [rewrite Hrun; reflexivity | exact Hcount].
Defined.

(** C5: when the breakdown result has [shouldContinue] false, [invoke]
    returns [Rejected], [spec.sections] holds the data of the breakdown, the
    appendix is untouched, and the only request to the chat model is the one
    of the breakdown: no sample is queried and no code is asked for.  In
    every run, code generation starts only after a breakdown result whose
    [shouldContinue] is truthy. *)
Theorem invoke_rejected_without_codegen env request w :
  (forall v d,
      fst (userInputBreakdownTaskAsync env request w) = Returned (Some v) ->
      js_get v (js "shouldContinue") = Some (JBool false) ->
      as_string_array (default JUndefined (js_get v (js "data"))) = Returned d ->
      invoke env request w =
        (Returned Rejected,
         {| spec := set_sections d (spec w);
            trace :=
              trace w ++
              [Progress (js "Identify code-generation scenarios...");
               ChatCompletion (js "copilot-gpt-3.5-turbo") (breakdown_messages env request);
               ConsoleLog];
            clockReads := S (clockReads w) |}))
  /\ (exists t,
         trace (snd (invoke env request w)) = trace w ++ t
         /\ (codegen_started t = true ->
             exists v sc,
               fst (userInputBreakdownTaskAsync env request w) = Returned (Some v)
               /\ js_get v (js "shouldContinue") = Some sc
               /\ truthy sc = true)).
Proof.
  rewrite userInputBreakdownTaskAsync_run. cbn [fst]. split.
  - intros v d Hv Hsc Hd. injection Hv as Hv.
    rewrite invoke_stages, (breakdown_stage_rejected _ _ _ _ _ Hv Hsc Hd).
    unfold after_breakdown, after_breakdown_request, tick. rewrite Hv.
    cbn [spec trace clockReads]. rewrite <- app_assoc. reflexivity.
  - rewrite invoke_stages.
    destruct (breakdown_stage_trace env request (tick w)) as [Ht Hnone].
    destruct (breakdown_stage env request (tick w)) as [[[r|]|e|] w'] eqn:E;
      cbn [fst snd] in Ht, Hnone.
    2: { destruct (Hnone eq_refl) as (v & sc & Hv & Hsc & Htsc).
         destruct (codegen_stage_trace env request (clock env (clockReads w)) w')
           as [tail Htail].
         eexists. split.
         - rewrite Htail, Ht. unfold after_breakdown, after_breakdown_request, tick.
           cbn [trace]. rewrite <- !app_assoc. reflexivity.
         - intros _. exists v, sc. rewrite Hv. auto. }
    all: eexists; split;
      [cbn [snd]; rewrite Ht; unfold after_breakdown, after_breakdown_request, tick;
       cbn [trace]; rewrite <- !app_assoc; reflexivity
      |destruct (try_parse (breakdown_response env request)); discriminate].
Qed.

(** A run of C5: the chat model rejects the request. *)
Lemma invoke_rejected_without_codegen_witness :
  fst (invoke
         (example_env
            (fun _ _ =>
               json_text "{'host': 'Excel', 'shouldContinue': false, 'data': ['Not an Office task']}")
            [])
         example_request (example_world 0 ∅))
  = Returned Rejected
  /\ sections
       (spec (snd (invoke
                     (example_env
                        (fun _ _ =>
                           json_text "{'host': 'Excel', 'shouldContinue': false, 'data': ['Not an Office task']}")
                        [])
                     example_request (example_world 0 ∅))))
     = [js "Not an Office task"]
  /\ codegen_started
       (trace (snd (invoke
                      (example_env
                         (fun _ _ =>
                            json_text "{'host': 'Excel', 'shouldContinue': false, 'data': ['Not an Office task']}")
                         [])
                      example_request (example_world 0 ∅))))
     = false.
Proof.
  destruct (invoke_rejected_without_codegen
              (example_env
                 (fun _ _ =>
                    json_text "{'host': 'Excel', 'shouldContinue': false, 'data': ['Not an Office task']}")
                 [])
              example_request (example_world 0 ∅)) as [Hrej _].
  rewrite (Hrej (JObj [(js "host", JStr (js "Excel"));
                       (js "shouldContinue", JBool false);
                       (js "data", JArr [JStr (js "Not an Office task")])])
             [js "Not an Office task"]);
    [repeat split | vm_compute; reflexivity..].
Defined.

(** C9: on a string array, empty or not, the guard of the breakdown stage
    is true whatever the host is, so every call of [invoke] begins with the
    progress message and the chat request of the breakdown, whatever [spec]
    holds.  On other values the guard can be false or throw. *)
Theorem breakdown_stage_never_skipped :
  (forall h items, breakdown_guard h (JArr items) = Returned true)
  /\ (forall env request w,
         exists t,
           trace (snd (invoke env request w)) =
           trace w ++
           Progress (js "Identify code-generation scenarios...")
           :: ChatCompletion (js "copilot-gpt-3.5-turbo") (breakdown_messages env request)
           :: t)
  /\ breakdown_guard (JStr []) (JNum 0) = Returned false
  /\ breakdown_guard (JStr []) JUndefined = Threw TypeError.
Proof.
  split; [exact breakdown_guard_array|]. split; [|split; reflexivity].
  intros env request w. rewrite invoke_stages.
  destruct (breakdown_stage_trace env request (tick w)) as [Ht _].
  destruct (breakdown_stage env request (tick w)) as [[[r|]|e|] w'] eqn:E;
    cbn [fst snd] in Ht.
  2: { destruct (codegen_stage_trace env request (clock env (clockReads w)) w')
         as [tail Htail].
       eexists. rewrite Htail, Ht. unfold after_breakdown, after_breakdown_request, tick.
       cbn [trace]. rewrite <- !app_assoc. reflexivity. }
  all: eexists; cbn [snd]; rewrite Ht;
    unfold after_breakdown, after_breakdown_request, tick;
    cbn [trace]; rewrite <- !app_assoc; reflexivity.
Qed.

(** ** Facts about the deploy action *)

Lemma path_normalize_nonempty p : path_normalize p <> [].
Proof.
  unfold path_normalize. destruct p as [|c p]; [vm_compute; discriminate|].
  destruct (normalizeString (c :: p) (negb (c =? 47))) as [|x xs].
  - destruct (c =? 47); [|destruct (bool_decide _)]; vm_compute; discriminate.
  - destruct (c =? 47); destruct (bool_decide _); discriminate.
Qed.

Lemma path_join_nonempty args wd : path_join args = Returned wd -> wd <> [].
Proof.
  unfold path_join. destruct (join_args None args) as [[j|]|e|]; try discriminate.
  - intros [= <-]. apply path_normalize_nonempty.
  - intros [= <-]. vm_compute. discriminate.
Qed.

Lemma path_join_strings p g : exists wd, path_join [JStr p; JStr g] = Returned wd.
Proof.
  unfold path_join. simpl. destruct p, g; eexists; reflexivity.
Qed.

Lemma path_join_outcome p f :
  (exists wd, path_join [JStr p; f] = Returned wd) \/ path_join [JStr p; f] = Threw TypeError.
Proof.
  destruct f; try (right; reflexivity). left. apply path_join_strings.
Qed.

Lemma truthy_nonempty s : s <> [] -> truthy (JStr s) = true.
Proof. intros H. simpl. rewrite bool_decide_eq_false_2 by exact H. reflexivity. Qed.

(** [execute] up to the test of the directory: the log line, the join and
    the look at the disk. *)
Lemma deploy_execute_missing_directory env ctx inputs t wd :
  path_join [JStr (AzureFunctionResource.projectPath inputs);
             AzureFunctionResource.folder inputs] = Returned wd ->
  AzureFunctionResource.fs_pathExists env wd = false ->
  AzureFunctionResource.deploy_execute env ctx inputs t =
  (Threw PackDirectoryExistenceError,
   t ++ [AzureFunctionResource.LogInfo AzureFunctionResource.DeployingBot;
         AzureFunctionResource.PathExists wd]).
Proof.
  intros Hj He. unfold AzureFunctionResource.deploy_execute.
  cbv beta iota zeta delta
    [bind lift modify ret throw AzureFunctionResource.emit AzureFunctionResource.pathExists].
  rewrite Hj, (truthy_nonempty _ (path_join_nonempty _ _ Hj)), He.
  cbn [negb]. rewrite <- app_assoc. reflexivity.
Qed.

(** [execute] when the directory exists. *)
Lemma deploy_execute_existing_directory env ctx inputs t wd :
  path_join [JStr (AzureFunctionResource.projectPath inputs);
             AzureFunctionResource.folder inputs] = Returned wd ->
  AzureFunctionResource.fs_pathExists env wd = true ->
  AzureFunctionResource.deploy_execute env ctx inputs t =
  match AzureFunctionResource.envInfo_state ctx !! AzureFunctionResource.name with
  | None =>
      (Threw TypeError,
       t ++ [AzureFunctionResource.LogInfo AzureFunctionResource.DeployingBot;
             AzureFunctionResource.PathExists wd])
  | Some st =>
      match st !! AzureFunctionResource.outputs_endpoint_key,
            st !! AzureFunctionResource.outputs_resourceId_key with
      | None, _ =>
          (Threw (SomethingMissingError AzureFunctionResource.outputs_endpoint_key),
           t ++ [AzureFunctionResource.LogInfo AzureFunctionResource.DeployingBot;
                 AzureFunctionResource.PathExists wd])
      | Some _, None =>
          (Threw (SomethingMissingError AzureFunctionResource.outputs_resourceId_key),
           t ++ [AzureFunctionResource.LogInfo AzureFunctionResource.DeployingBot;
                 AzureFunctionResource.PathExists wd])
      | Some _, Some resourceId =>
          (Returned
             [{| AzureFunctionResource.type := "service";
                 AzureFunctionResource.effect_name := "azure";
                 AzureFunctionResource.remarks :=
                   js "deploy azure function in folder: " ++ wd |}],
           t ++ [AzureFunctionResource.LogInfo AzureFunctionResource.DeployingBot;
                 AzureFunctionResource.PathExists wd;
                 AzureFunctionResource.ZipFolder wd [];
                 AzureFunctionResource.AzureWebSiteDeploy (Some resourceId)
                   (AzureFunctionResource.zip_of env wd [])])
      end
  end.
Proof.
  intros Hj He. unfold AzureFunctionResource.deploy_execute.
  cbv beta iota zeta delta
    [bind lift modify ret throw AzureFunctionResource.emit AzureFunctionResource.pathExists].
  rewrite Hj, (truthy_nonempty _ (path_join_nonempty _ _ Hj)), He.
  cbn [negb].
  destruct (AzureFunctionResource.envInfo_state ctx !! AzureFunctionResource.name)
    as [st|]; cbn [AzureFunctionResource.read_state].
  2: { cbv beta iota zeta delta [throw]. rewrite <- app_assoc. reflexivity. }
  cbv beta iota zeta delta [ret].
  destruct (st !! AzureFunctionResource.outputs_endpoint_key) as [ep|];
    cbn [AzureFunctionResource.CheckThrowSomethingMissing];
    cbv beta iota zeta delta [ret throw];
    [|rewrite <- app_assoc; reflexivity].
  destruct (st !! AzureFunctionResource.outputs_resourceId_key) as [rid|];
    cbn [AzureFunctionResource.CheckThrowSomethingMissing];
    cbv beta iota zeta delta
      [bind ret throw modify AzureFunctionResource.zipFolderAsync AzureFunctionResource.emit];
    rewrite <- !app_assoc; reflexivity.
Qed.

Lemma deploy_execute_bad_folder env ctx inputs t :
  path_join [JStr (AzureFunctionResource.projectPath inputs);
             AzureFunctionResource.folder inputs] = Threw TypeError ->
  AzureFunctionResource.deploy_execute env ctx inputs t =
  (Threw TypeError, t ++ [AzureFunctionResource.LogInfo AzureFunctionResource.DeployingBot]).
Proof.
  intros Hj. unfold AzureFunctionResource.deploy_execute.
  cbv beta iota zeta delta [bind lift modify ret throw AzureFunctionResource.emit].
  rewrite Hj. reflexivity.
Qed.

Lemma deploy_effects_app t1 t2 :
  deploy_effects (t1 ++ t2) = deploy_effects t1 ++ deploy_effects t2.
Proof. apply List.filter_app. Qed.

(** C6: when the working directory, [projectPath] joined with [folder],
    does not exist on disk, [execute] throws [PackDirectoryExistenceError]
    after the log line and the look at the disk: nothing is archived and
    the deployment API is not called. *)
Theorem deploy_fails_fast_without_directory env ctx inputs t wd :
  path_join [JStr (AzureFunctionResource.projectPath inputs);
             AzureFunctionResource.folder inputs] = Returned wd ->
  AzureFunctionResource.fs_pathExists env wd = false ->
  fst (AzureFunctionResource.deploy_execute env ctx inputs t)
  = Threw PackDirectoryExistenceError
  /\ snd (AzureFunctionResource.deploy_execute env ctx inputs t)
     = t ++ [AzureFunctionResource.LogInfo AzureFunctionResource.DeployingBot;
             AzureFunctionResource.PathExists wd]
  /\ deploy_effects (snd (AzureFunctionResource.deploy_execute env ctx inputs t))
     = deploy_effects t.
Proof.
  intros Hj He. rewrite (deploy_execute_missing_directory _ _ _ _ _ Hj He).
  cbn [fst snd]. rewrite deploy_effects_app. cbn. rewrite app_nil_r. auto.
Qed.

(** A run of C6: no directory exists on disk. *)
Lemma deploy_fails_fast_without_directory_witness :
  path_join [JStr (AzureFunctionResource.projectPath example_inputs);
             AzureFunctionResource.folder example_inputs]
  = Returned (js "/home/me/app/api")
  /\ fst (AzureFunctionResource.deploy_execute (example_fs [])
            (example_context [("endpoint", js "https://f.example"); ("resourceId", js "/sites/f")])
            example_inputs [])
     = Threw PackDirectoryExistenceError.
Proof.
  split; [vm_compute; reflexivity|].
  apply (deploy_fails_fast_without_directory (example_fs [])
           (example_context [("endpoint", js "https://f.example"); ("resourceId", js "/sites/f")])
           example_inputs [] (js "/home/me/app/api"));
    vm_compute; reflexivity.
Defined.

(** C7: when [endpoint] or [resourceId] is absent from the provisioning
    output of the component, [execute] does not return, nothing is archived
    and the deployment API is not called; when the working directory exists,
    the error is the one of [CheckThrowSomethingMissing] for an absent key,
    thrown right after the look at the disk. *)
Theorem deploy_requires_provisioning_outputs env ctx inputs t st :
  AzureFunctionResource.envInfo_state ctx !! AzureFunctionResource.name = Some st ->
  st !! AzureFunctionResource.outputs_endpoint_key = None
  \/ st !! AzureFunctionResource.outputs_resourceId_key = None ->
  (forall effects,
      fst (AzureFunctionResource.deploy_execute env ctx inputs t) <> Returned effects)
  /\ deploy_effects (snd (AzureFunctionResource.deploy_execute env ctx inputs t))
     = deploy_effects t
  /\ (forall wd,
         path_join [JStr (AzureFunctionResource.projectPath inputs);
                    AzureFunctionResource.folder inputs] = Returned wd ->
         AzureFunctionResource.fs_pathExists env wd = true ->
         exists key,
           (key = AzureFunctionResource.outputs_endpoint_key
            \/ key = AzureFunctionResource.outputs_resourceId_key)
           /\ st !! key = None
           /\ AzureFunctionResource.deploy_execute env ctx inputs t
              = (Threw (SomethingMissingError key),
                 t ++ [AzureFunctionResource.LogInfo AzureFunctionResource.DeployingBot;
                       AzureFunctionResource.PathExists wd])).
Proof.
  intros Hst Habsent.
  assert (forall wd,
             path_join [JStr (AzureFunctionResource.projectPath inputs);
                        AzureFunctionResource.folder inputs] = Returned wd ->
             AzureFunctionResource.fs_pathExists env wd = true ->
             exists key,
               (key = AzureFunctionResource.outputs_endpoint_key
                \/ key = AzureFunctionResource.outputs_resourceId_key)
               /\ st !! key = None
               /\ AzureFunctionResource.deploy_execute env ctx inputs t
                  = (Threw (SomethingMissingError key),
                     t ++ [AzureFunctionResource.LogInfo AzureFunctionResource.DeployingBot;
                           AzureFunctionResource.PathExists wd])) as Hthrown.
  { intros wd Hj He. rewrite (deploy_execute_existing_directory _ _ _ _ _ Hj He), Hst.
    destruct (st !! AzureFunctionResource.outputs_endpoint_key) as [ep|] eqn:Eep.
    - destruct Habsent as [H|H]; [discriminate|]. rewrite H.
      exists AzureFunctionResource.outputs_resourceId_key. auto.
    - exists AzureFunctionResource.outputs_endpoint_key. auto. }
  assert (exists e t',
             AzureFunctionResource.deploy_execute env ctx inputs t = (Threw e, t ++ t')
             /\ deploy_effects t' = []) as (e & t' & Hrun & Hquiet).
  { destruct (path_join_outcome (AzureFunctionResource.projectPath inputs)
                (AzureFunctionResource.folder inputs)) as [[wd Hj] | Hj].
    - destruct (AzureFunctionResource.fs_pathExists env wd) eqn:He.
      + destruct (Hthrown wd Hj He) as (key & _ & _ & Hrun). eauto.
      + rewrite (deploy_execute_missing_directory _ _ _ _ _ Hj He). eauto.
    - rewrite (deploy_execute_bad_folder _ _ _ _ Hj). eauto. }
  split; [|split; [|exact Hthrown]]; rewrite Hrun; cbn [fst snd].
  - discriminate.
  - rewrite deploy_effects_app, Hquiet. apply app_nil_r.
Qed.

(** A run of C7: the directory exists, provisioning left an endpoint and no
    resource id. *)
Lemma deploy_requires_provisioning_outputs_witness :
  AzureFunctionResource.deploy_execute (example_fs [js "/home/me/app/api"])
    (example_context [("endpoint", js "https://f.example")]) example_inputs []
  = (Threw (SomethingMissingError "resourceId"),
     [AzureFunctionResource.LogInfo AzureFunctionResource.DeployingBot;
      AzureFunctionResource.PathExists (js "/home/me/app/api")]).
Proof.
  destruct (deploy_requires_provisioning_outputs (example_fs [js "/home/me/app/api"])
              (example_context [("endpoint", js "https://f.example")]) example_inputs []
              (list_to_map [("endpoint", js "https://f.example")]))
    as (_ & _ & Hthrown); [vm_compute; reflexivity | right; vm_compute; reflexivity |].
  destruct (Hthrown (js "/home/me/app/api")) as (key & [-> | ->] & Hnone & Hrun);
    [vm_compute; reflexivity..| |].
  - vm_compute in Hnone. discriminate Hnone.
  - exact Hrun.
Defined.

(** C10: [path.join] of two strings returns a string that is not empty, so
    the test [!workingDir] is false, and no run of [execute] throws the
    [PreconditionError] of the missing working directory. *)
Theorem deploy_working_dir_check_unreachable :
  (forall p g,
      exists wd,
        path_join [JStr p; JStr g] = Returned wd /\ wd <> [] /\ negb (truthy (JStr wd)) = false)
  /\ (forall env ctx inputs t,
         fst (AzureFunctionResource.deploy_execute env ctx inputs t)
         <> Threw (PreconditionError WorkingDirIsMissing)).
Proof.
  split.
  - intros p g. destruct (path_join_strings p g) as [wd Hj]. exists wd.
    pose proof (path_join_nonempty _ _ Hj) as Hne.
    rewrite (truthy_nonempty _ Hne). auto.
  - intros env ctx inputs t.
    destruct (path_join_outcome (AzureFunctionResource.projectPath inputs)
                (AzureFunctionResource.folder inputs)) as [[wd Hj] | Hj].
    + destruct (AzureFunctionResource.fs_pathExists env wd) eqn:He.
      * rewrite (deploy_execute_existing_directory _ _ _ _ _ Hj He).
        destruct (AzureFunctionResource.envInfo_state ctx !! AzureFunctionResource.name)
          as [st|]; [|discriminate].
        destruct (st !! AzureFunctionResource.outputs_endpoint_key);
          [destruct (st !! AzureFunctionResource.outputs_resourceId_key)|]; discriminate.
      * rewrite (deploy_execute_missing_directory _ _ _ _ _ Hj He). discriminate.
    + rewrite (deploy_execute_bad_folder _ _ _ _ Hj). discriminate.
Qed.

(** ** More of [invoke]: the code-generation stage *)

Lemma codegen_stage_run env request t0 w :
  codegen_stage env request t0 w =
  (Returned
     (match extract_code env (codegen_response_of env request (appendix (spec w))) with
      | Some (_ :: _) => Success
      | _ => Failure
      end),
   {| spec :=
        set_appendix
          (appendix_after_codegen_stage env request t0 w
             (extract_code env (codegen_response_of env request (appendix (spec w)))))
          (spec w);
      trace :=
        trace w ++
        Progress (codegen_progress (complexity (appendix (spec w))))
        :: SampleQuery request (host (appendix (spec w))) (prompt request) 2
        :: ChatCompletion (codegen_model (complexity (appendix (spec w))))
             (codegen_messages env request (host (appendix (spec w)))
                (isCustomFunction (appendix (spec w)))
                (codeTaskBreakdown (appendix (spec w)))
                (codegen_samples env request (host (appendix (spec w)))))
        :: match extract_code env (codegen_response_of env request (appendix (spec w))) with
           | None => [ConsoleError; ConsoleLog]
           | Some _ => [ConsoleLog]
           end;
      clockReads := S (clockReads w) |}).
Proof.
  destruct w as [[secs [h cs ctb cf c td]] t n].
  unfold codegen_stage, codegen_response_of, appendix_after_codegen_stage,
    codegen_duration, codegen_progress.
  cbv beta iota zeta delta
    [bind update_appendix update_spec modify gets ret emit performance_now
       spec trace clockReads appendix set_appendix complexity host isCustomFunction
       codeTaskBreakdown set_measurements].
  rewrite generateCode_run.
  cbv beta iota zeta delta
    [bind update_appendix update_spec modify gets ret emit performance_now
       spec trace clockReads appendix set_appendix complexity host isCustomFunction
       codeTaskBreakdown set_measurements appendix_after_generateCode set_property
       telemetryData properties measurements codeSnippet].
  destruct (extract_code env _) as [[|x xs]|];
    cbv beta iota zeta delta
      [bind update_appendix update_spec modify gets ret emit snd trace spec clockReads
         set_appendix appendix set_property set_codeSnippet host codeSnippet
         codeTaskBreakdown isCustomFunction complexity telemetryData properties
         measurements];
    rewrite <- !app_assoc; reflexivity.
Qed.

Lemma breakdown_stage_accepted env request w v h d cf c :
  try_parse (breakdown_response env request) = Some v ->
  accepted_with v h d cf c ->
  breakdown_stage env request w =
  (Returned None, after_accepted_breakdown env request w h d cf c).
Proof.
  intros Hv (Htv & (sc & Hsc & Htsc) & Hh & Hd & Hcf & Hc).
  run_breakdown_stage. rewrite Hv, Htv.
  cbv beta iota zeta delta [negb bind lift]. rewrite Hsc.
  cbn [from_option]. rewrite Htsc, Hh.
  cbv beta iota zeta delta [update_appendix update_spec modify]. rewrite Hd, Hcf, Hc.
  reflexivity.
Qed.

Lemma as_string_array_never_throws v e : as_string_array v <> Threw e.
Proof.
  destruct v; try discriminate. simpl. revert e.
  induction items as [|[] items IH]; simpl; intros e; try discriminate.
  destruct (as_strings items) as [l|e'|]; try discriminate.
  intros _. exact (IH e' eq_refl).
Qed.

(** Every way the breakdown stage can end. *)
Lemma breakdown_stage_cases env request w :
  fst (breakdown_stage env request w) = Returned (Some Failure)
  \/ fst (breakdown_stage env request w) = Returned (Some Rejected)
  \/ fst (breakdown_stage env request w) = OutsideTypes
  \/ exists v h d cf c,
       try_parse (breakdown_response env request) = Some v
       /\ accepted_with v h d cf c
       /\ breakdown_stage env request w =
          (Returned None, after_accepted_breakdown env request w h d cf c).
Proof.
  destruct (try_parse (breakdown_response env request)) as [v|] eqn:Hv.
  2: { left. rewrite breakdown_stage_failed by (rewrite Hv; exact I). reflexivity. }
  destruct (truthy v) eqn:Htv.
  2: { left. rewrite breakdown_stage_failed by (rewrite Hv; exact Htv). reflexivity. }
  destruct (js_get v (js "shouldContinue")) as [sc|] eqn:Hsc.
  2: { destruct v; discriminate. }
  destruct (truthy sc) eqn:Htsc.
  - destruct (as_string (default JUndefined (js_get v (js "host")))) as [h|e|] eqn:Hh.
    2: { destruct (default JUndefined (js_get v (js "host"))); discriminate. }
    2: { right. right. left. run_breakdown_stage. rewrite Hv, Htv.
         cbv beta iota zeta delta [negb bind lift]. rewrite Hsc. cbn [from_option].
         rewrite Htsc, Hh. reflexivity. }
    destruct (as_string_array (default JUndefined (js_get v (js "data")))) as [d|e|] eqn:Hd.
    2,3: right; right; left; run_breakdown_stage; rewrite Hv, Htv;
         cbv beta iota zeta delta [negb bind lift]; rewrite Hsc; cbn [from_option];
         rewrite Htsc, Hh; cbv beta iota zeta delta [update_appendix update_spec modify];
         rewrite Hd.
    3: reflexivity.
    2: { exfalso. exact (as_string_array_never_throws _ _ Hd). }
    destruct (as_boolean (default JUndefined (js_get v (js "customFunctions"))))
      as [cf|e|] eqn:Hcf.
    2: { destruct (default JUndefined (js_get v (js "customFunctions"))); discriminate. }
    2: { right. right. left. run_breakdown_stage. rewrite Hv, Htv.
         cbv beta iota zeta delta [negb bind lift]. rewrite Hsc. cbn [from_option].
         rewrite Htsc, Hh. cbv beta iota zeta delta [update_appendix update_spec modify].
         rewrite Hd, Hcf. reflexivity. }
    destruct (as_number (default JUndefined (js_get v (js "complexity")))) as [c|e|] eqn:Hc.
    2: { destruct (default JUndefined (js_get v (js "complexity"))); discriminate. }
    2: { right. right. left. run_breakdown_stage. rewrite Hv, Htv.
         cbv beta iota zeta delta [negb bind lift]. rewrite Hsc. cbn [from_option].
         rewrite Htsc, Hh. cbv beta iota zeta delta [update_appendix update_spec modify].
         rewrite Hd, Hcf, Hc. reflexivity. }
    right. right. right. exists v, h, d, cf, c. split; [reflexivity|].
    assert (accepted_with v h d cf c) as Hacc by (unfold accepted_with; eauto 10).
    split; [exact Hacc|]. apply (breakdown_stage_accepted _ _ _ v); assumption.
  - run_breakdown_stage. rewrite Hv, Htv.
    cbv beta iota zeta delta [negb bind lift]. rewrite Hsc. cbn [from_option]. rewrite Htsc.
    destruct (as_string_array (default JUndefined (js_get v (js "data")))) as [d|e|] eqn:Hd;
      [right; left | | right; right; left]; try reflexivity.
    exfalso. exact (as_string_array_never_throws _ _ Hd).
Qed.

Lemma invoke_accepted env request w v h d cf c :
  try_parse (breakdown_response env request) = Some v ->
  accepted_with v h d cf c ->
  invoke env request w =
  codegen_stage env request (clock env (clockReads w))
    (after_accepted_breakdown env request (tick w) h d cf c).
Proof.
  intros Hv Hacc. rewrite invoke_stages, (breakdown_stage_accepted _ _ _ _ _ _ _ _ Hv Hacc).
  reflexivity.
Qed.

(** X1: when [invoke] returns [Success], the code snippet left in [spec] is
    not empty, it is what the answer to this call's code request yields, and
    the result property of the telemetry is ["true"]. *)
Theorem invoke_success_stores_code env request w :
  fst (invoke env request w) = Returned Success ->
  codeSnippet (appendix (spec (snd (invoke env request w)))) <> []
  /\ extract_code env
       (codegen_response_of env request (appendix (spec (snd (invoke env request w)))))
     = Some (codeSnippet (appendix (spec (snd (invoke env request w)))))
  /\ properties (telemetryData (appendix (spec (snd (invoke env request w)))))
     !! PropertySystemCodeGenResult env = Some (js "true").
Proof.
  rewrite invoke_stages.
  destruct (breakdown_stage_cases env request (tick w))
    as [H | [H | [H | (v & h & d & cf & c & Hv & Hacc & Hrun)]]].
  1-3: destruct (breakdown_stage env request (tick w)) as [o w'];
       cbn [fst] in H; subst o; cbv beta iota; cbn [fst]; discriminate.
  rewrite Hrun, codegen_stage_run. cbn [fst snd spec].
  destruct (extract_code env _) as [[|x xs]|] eqn:E; try discriminate. intros _.
  destruct w as [[secs [h0 cs0 ctb0 cf0 c0 [ps ms]]] t n].
  unfold after_accepted_breakdown, appendix_after_codegen_stage, codegen_response_of in *.
  cbn [spec appendix set_appendix set_codeSnippet codeSnippet host isCustomFunction
         codeTaskBreakdown complexity set_property set_measurements telemetryData
         properties measurements appendix_after_generateCode set_complexity
         set_isCustomFunction set_codeTaskBreakdown set_host tick] in *.
  split; [discriminate|]. split; [exact E|]. apply lookup_insert_eq.
Qed.

(** A run of X1. *)
Lemma invoke_success_stores_code_witness :
  fst (invoke example_chat_env example_request (example_world 0 ∅)) = Returned Success
  /\ codeSnippet (appendix (spec (snd (invoke example_chat_env example_request
                                         (example_world 0 ∅)))))
     <> [].
Proof.
  assert (fst (invoke example_chat_env example_request (example_world 0 ∅))
          = Returned Success) as H by (vm_compute; reflexivity).
  split; [exact H|].
  exact (proj1 (invoke_success_stores_code example_chat_env example_request
                  (example_world 0 ∅) H)).
Defined.

(** X2: when the breakdown is accepted and the answer to the code request
    yields no code or the empty string, [invoke] returns [Failure], records
    ["false"] as the result property and leaves the code snippet of [spec]
    as it was; the host, the tasks, the flag and the complexity are the ones
    of the breakdown. *)
Theorem invoke_without_code_fails env request w v h d cf c :
  fst (userInputBreakdownTaskAsync env request w) = Returned (Some v) ->
  accepted_with v h d cf c ->
  extract_code env (codegen_response env request h cf d c) = None
  \/ extract_code env (codegen_response env request h cf d c) = Some [] ->
  fst (invoke env request w) = Returned Failure
  /\ codeSnippet (appendix (spec (snd (invoke env request w))))
     = codeSnippet (appendix (spec w))
  /\ properties (telemetryData (appendix (spec (snd (invoke env request w)))))
     !! PropertySystemCodeGenResult env = Some (js "false")
  /\ host (appendix (spec (snd (invoke env request w)))) = h
  /\ codeTaskBreakdown (appendix (spec (snd (invoke env request w)))) = d
  /\ isCustomFunction (appendix (spec (snd (invoke env request w)))) = cf
  /\ complexity (appendix (spec (snd (invoke env request w)))) = c.
Proof.
  rewrite userInputBreakdownTaskAsync_run. cbn [fst]. intros [= Hv] Hacc Hcode.
  rewrite (invoke_accepted _ _ _ _ _ _ _ _ Hv Hacc), codegen_stage_run.
  destruct w as [[secs [h0 cs0 ctb0 cf0 c0 [ps ms]]] t n].
  unfold after_accepted_breakdown, appendix_after_codegen_stage, codegen_response_of.
  cbn [fst snd spec appendix set_appendix set_codeSnippet codeSnippet host isCustomFunction
         codeTaskBreakdown complexity set_property set_measurements telemetryData
         properties measurements appendix_after_generateCode set_complexity
         set_isCustomFunction set_codeTaskBreakdown set_host tick].
  destruct Hcode as [-> | ->];
    cbn [fst snd spec appendix set_appendix set_codeSnippet codeSnippet host
           isCustomFunction codeTaskBreakdown complexity set_property set_measurements
           telemetryData properties measurements];
    rewrite lookup_insert_eq; auto 10.
Qed.

(** A run of X2: the breakdown accepts and the code block of the answer is
    blank. *)
Lemma invoke_without_code_fails_witness :
  fst (invoke
         (example_env
            (fun _ messages =>
               match messages with
               | [_; _] =>
                   json_text "{'host': 'Word', 'shouldContinue': true, 'data': ['main'], 'complexity': 10, 'customFunctions': false}"
               | _ => js "```typescript   ```"
               end)
            [])
         example_request (example_world 0 ∅))
  = Returned Failure.
Proof.
  refine (proj1 (invoke_without_code_fails
                   (example_env
                      (fun _ messages =>
                         match messages with
                         | [_; _] =>
                             json_text "{'host': 'Word', 'shouldContinue': true, 'data': ['main'], 'complexity': 10, 'customFunctions': false}"
                         | _ => js "```typescript   ```"
                         end)
                      [])
                   example_request (example_world 0 ∅)
                   (JObj [(js "host", JStr (js "Word")); (js "shouldContinue", JBool true);
                          (js "data", JArr [JStr (js "main")]); (js "complexity", JNum 10);
                          (js "customFunctions", JBool false)])
                   (js "Word") [js "main"] false 10 _ _ _)).
  - vm_compute. reflexivity.
  - unfold accepted_with. repeat split; try (vm_compute; reflexivity).
    exists (JBool true). split; vm_compute; reflexivity.
  - right. vm_compute. reflexivity.
Defined.


(** X4: a breakdown result that is not [null] but falsy (the responses [0],
    [false] and the empty string literal) is handled as a failed breakdown:
    [invoke] returns [Failure], adds one to the counter of failed
    breakdowns and asks for no code. *)
Theorem invoke_falsy_breakdown_fails env request w v :
  fst (userInputBreakdownTaskAsync env request w) = Returned (Some v) ->
  truthy v = false ->
  invoke env request w =
  (Returned Failure,
   {| spec :=
        set_appendix
          (set_measurements
             (measurement_add
                (MeasurementSystemCodegenTaskBreakdownAttemptFailedCount env) 1))
          (spec w);
      trace :=
        trace w ++
        [Progress (js "Identify code-generation scenarios...");
         ChatCompletion (js "copilot-gpt-3.5-turbo") (breakdown_messages env request);
         ConsoleLog];
      clockReads := S (clockReads w) |}).
Proof.
  rewrite userInputBreakdownTaskAsync_run. cbn [fst]. intros [= Hv] Htv.
  rewrite invoke_stages, breakdown_stage_failed by (rewrite Hv; exact Htv).
  unfold after_breakdown, after_breakdown_request, tick. rewrite Hv.
  cbn [spec trace clockReads]. rewrite <- app_assoc. reflexivity.
Qed.

(** A run of X4: the chat model answers [0]. *)
Lemma invoke_falsy_breakdown_fails_witness :
  fst (invoke (example_env (fun _ _ => js "0") []) example_request (example_world 0 ∅))
  = Returned Failure
  /\ failed_count (example_env (fun _ _ => js "0") [])
       (snd (invoke (example_env (fun _ _ => js "0") []) example_request
               (example_world 0 ∅)))
     = Some 1%Q.
Proof.
  rewrite (invoke_falsy_breakdown_fails (example_env (fun _ _ => js "0") [])
             example_request (example_world 0 ∅) (JNum 0));
    [split | vm_compute; reflexivity..]; vm_compute; reflexivity.
Defined.

Lemma breakdown_stage_result_independent env request w1 w2 :
  fst (breakdown_stage env request w1) = fst (breakdown_stage env request w2).
Proof.
  unfold breakdown_stage. cbv beta iota zeta delta [bind emit modify].
  rewrite !userInputBreakdownTaskAsync_run.
  destruct (try_parse (breakdown_response env request)) as [v|]; [|reflexivity].
  destruct (truthy v); [|reflexivity].
  cbv beta iota zeta delta [negb bind lift].
  destruct (js_get v (js "shouldContinue")) as [sc|]; [|reflexivity].
  cbn [from_option].
  destruct (truthy sc).
  - destruct (as_string _); [|reflexivity..].
    cbv beta iota zeta delta [update_appendix update_spec modify].
    destruct (as_string_array _); [|reflexivity..].
    destruct (as_boolean _); [|reflexivity..].
    destruct (as_number _); reflexivity.
  - destruct (as_string_array _); reflexivity.
Qed.

(** X5: what [invoke] returns and what it does to its collaborators do not
    depend on the host, the tasks, the flag and the complexity stored in
    [spec] by an earlier call: they are never reused. *)
Theorem invoke_ignores_stored_breakdown env request w h d cf c :
  fst (invoke env request (with_stored_breakdown h d cf c w)) = fst (invoke env request w)
  /\ trace (snd (invoke env request (with_stored_breakdown h d cf c w)))
     = trace (snd (invoke env request w)).
Proof.
  rewrite !invoke_stages.
  pose proof (breakdown_stage_result_independent env request
                (tick (with_stored_breakdown h d cf c w)) (tick w)) as Hfst.
  destruct (breakdown_stage_trace env request (tick (with_stored_breakdown h d cf c w)))
    as [Ht2 _].
  destruct (breakdown_stage_trace env request (tick w)) as [Ht1 _].
  destruct (breakdown_stage_cases env request (tick w))
    as [H | [H | [H | (v & h' & d' & cf' & c' & Hv & Hacc & Hrun)]]].
  1-3: rewrite H in Hfst;
       destruct (breakdown_stage env request (tick w)) as [o1 w1];
       destruct (breakdown_stage env request (tick (with_stored_breakdown h d cf c w)))
         as [o2 w2];
       cbn [fst snd] in *; subst o1 o2; cbv beta iota; cbn [fst snd];
       rewrite Ht1, Ht2; split; reflexivity.
  rewrite Hrun, (breakdown_stage_accepted _ _ _ _ _ _ _ _ Hv Hacc), !codegen_stage_run.
  destruct w as [[secs [h0 cs0 ctb0 cf0 c0 td]] t n]. split; reflexivity.
Qed.

Lemma codegen_started_app t1 t2 :
  codegen_started (t1 ++ t2) = codegen_started t1 || codegen_started t2.
Proof. apply existsb_app. Qed.

Lemma complexity_after_codegen_stage env request t0 w code a :
  complexity (appendix_after_codegen_stage env request t0 w code a) = complexity a.
Proof. unfold appendix_after_codegen_stage. destruct code as [[|x xs]|]; reflexivity. Qed.

Lemma host_after_codegen_stage env request t0 w code a :
  host (appendix_after_codegen_stage env request t0 w code a) = host a.
Proof. unfold appendix_after_codegen_stage. destruct code as [[|x xs]|]; reflexivity. Qed.

(** X6: in a run of [invoke] that reaches code generation, the progress
    message and the choice of the model read the same complexity, the one
    this call's breakdown stored: the message announces a task of high
    complexity exactly when the code is asked from [copilot-gpt-4]. *)
Theorem invoke_progress_agrees_with_model env request w t :
  trace (snd (invoke env request w)) = trace w ++ t ->
  codegen_started t = true ->
  exists messages tail,
    t = Progress (js "Identify code-generation scenarios...")
        :: ChatCompletion (js "copilot-gpt-3.5-turbo") (breakdown_messages env request)
        :: ConsoleLog
        :: Progress (codegen_progress
                       (complexity (appendix (spec (snd (invoke env request w))))))
        :: SampleQuery request (host (appendix (spec (snd (invoke env request w)))))
             (prompt request) 2
        :: ChatCompletion
             (codegen_model (complexity (appendix (spec (snd (invoke env request w))))))
             messages
        :: tail
    /\ (codegen_model (complexity (appendix (spec (snd (invoke env request w)))))
        = js "copilot-gpt-4"
        <-> codegen_progress (complexity (appendix (spec (snd (invoke env request w)))))
            = js "This is a task with high complexity, may take a little bit longer..."
              ++ js "generating code...").
Proof.
  rewrite invoke_stages.
  destruct (breakdown_stage_trace env request (tick w)) as [Ht _].
  destruct (breakdown_stage_cases env request (tick w))
    as [H | [H | [H | (v & h & d & cf & c & Hv & Hacc & Hrun)]]].
  1-3: destruct (breakdown_stage env request (tick w)) as [o w'];
       cbn [fst snd] in *; subst o; cbv beta iota; cbn [snd]; rewrite Ht;
       unfold after_breakdown, after_breakdown_request, tick; cbn [trace];
       rewrite <- app_assoc; intros Heq; apply app_inv_head in Heq; subst t;
       destruct (try_parse (breakdown_response env request)); discriminate.
  rewrite Hrun, codegen_stage_run.
  cbn [snd spec set_appendix appendix].
  rewrite !complexity_after_codegen_stage, !host_after_codegen_stage.
  destruct w as [[secs [h0 cs0 ctb0 cf0 c0 td]] t0 n].
  unfold after_accepted_breakdown, after_breakdown, after_breakdown_request, tick.
  rewrite Hv.
  cbn [snd fst spec trace appendix set_appendix complexity host set_complexity
         set_isCustomFunction set_codeTaskBreakdown set_host isCustomFunction
         codeTaskBreakdown].
  rewrite <- !app_assoc. intros Heq _. apply app_inv_head in Heq. subst t.
  eexists _, _. split; [reflexivity|].
  unfold codegen_model, codegen_progress. destruct (Qle_bool 50 c).
  - split; reflexivity.
  - split; intros Hd; exfalso; vm_compute in Hd; discriminate Hd.
Qed.

(** A run of X6. *)
Lemma invoke_progress_agrees_with_model_witness :
  codegen_model
    (complexity (appendix (spec (snd (invoke example_chat_env example_request
                                        (example_world 0 ∅))))))
  = js "copilot-gpt-4"
  <-> codegen_progress
        (complexity (appendix (spec (snd (invoke example_chat_env example_request
                                            (example_world 0 ∅))))))
      = js "This is a task with high complexity, may take a little bit longer..."
        ++ js "generating code...".
Proof.
  pose proof (invoke_progress_agrees_with_model example_chat_env example_request
                (example_world 0 ∅)
                (trace (snd (invoke example_chat_env example_request (example_world 0 ∅)))))
    as H.
  assert (trace (snd (invoke example_chat_env example_request (example_world 0 ∅)))
          = trace (example_world 0 ∅)
            ++ trace (snd (invoke example_chat_env example_request (example_world 0 ∅))))
    as H1 by (vm_compute; reflexivity).
  assert (codegen_started
            (trace (snd (invoke example_chat_env example_request (example_world 0 ∅))))
          = true) as H2 by (vm_compute; reflexivity).
  destruct (H H1 H2) as (messages & tail & _ & Hiff). exact Hiff.
Defined.

(** ** More of [generateCode]: what it writes *)

(** X7: [generateCode] changes nothing of [spec] but the telemetry: the
    sections, the host, the code snippet, the tasks, the flag and the
    complexity are the ones it found.  Among the properties it writes the
    flag as ["true"] or ["false"] and, under a different key, the host, and
    leaves every other property alone. *)
Theorem generateCode_writes_telemetry_only env request h cf sf w :
  sections (spec (snd (generateCode env request h cf sf w))) = sections (spec w)
  /\ host (appendix (spec (snd (generateCode env request h cf sf w))))
     = host (appendix (spec w))
  /\ codeSnippet (appendix (spec (snd (generateCode env request h cf sf w))))
     = codeSnippet (appendix (spec w))
  /\ codeTaskBreakdown (appendix (spec (snd (generateCode env request h cf sf w))))
     = codeTaskBreakdown (appendix (spec w))
  /\ isCustomFunction (appendix (spec (snd (generateCode env request h cf sf w))))
     = isCustomFunction (appendix (spec w))
  /\ complexity (appendix (spec (snd (generateCode env request h cf sf w))))
     = complexity (appendix (spec w))
  /\ properties (telemetryData (appendix (spec (snd (generateCode env request h cf sf w)))))
     !! PropertySystemCodeGenIsCustomFunction env
     = Some (if cf then js "true" else js "false")
  /\ (PropertySystemCodeGenTargetedOfficeHostApplication env
      <> PropertySystemCodeGenIsCustomFunction env ->
      properties (telemetryData (appendix (spec (snd (generateCode env request h cf sf w)))))
      !! PropertySystemCodeGenTargetedOfficeHostApplication env
      = Some h)
  /\ (forall k,
         k <> PropertySystemCodeGenTargetedOfficeHostApplication env ->
         k <> PropertySystemCodeGenIsCustomFunction env ->
         properties (telemetryData (appendix (spec (snd (generateCode env request h cf sf w)))))
         !! k
         = properties (telemetryData (appendix (spec w))) !! k).
Proof.
  rewrite generateCode_run.
  destruct w as [[secs [h0 cs0 ctb0 cf0 c0 [ps ms]]] t n].
  unfold appendix_after_generateCode.
  cbn [snd spec appendix set_appendix sections host codeSnippet codeTaskBreakdown
         isCustomFunction complexity telemetryData properties set_measurements
         set_property measurements].
  repeat (split; [reflexivity|]). split; [apply lookup_insert_eq|]. split.
  - intros Hne. rewrite lookup_insert_ne by congruence. apply lookup_insert_eq.
  - intros k Hk1 Hk2. rewrite !lookup_insert_ne by congruence. reflexivity.
Qed.

Lemma measurements_after_generateCode env request h cf sf w :
  measurements (telemetryData (appendix (spec (snd (generateCode env request h cf sf w)))))
  = measurement_add (MeasurementScenarioBasedSampleMatchedCount env)
      (if (0 <? N.of_nat (length (codegen_samples env request h))) then 1 else 0)%Q
      (measurements (telemetryData (appendix (spec w)))).
Proof.
  rewrite generateCode_run. destruct w as [[secs [h0 cs0 ctb0 cf0 c0 [ps ms]]] t n].
  reflexivity.
Qed.

(** X8: [generateCode] adds one to the counter of matched samples when the
    provider returned a sample and nothing when it returned none (the
    counter is then present, at 0 when it was absent or zero); no other
    measurement changes. *)
Theorem generateCode_counts_matched_samples env request h cf sf w :
  (sampleProvider env request h (prompt request) 2 <> [] ->
   measurements (telemetryData (appendix (spec (snd (generateCode env request h cf sf w)))))
   !! MeasurementScenarioBasedSampleMatchedCount env
   = Some ((match measurements (telemetryData (appendix (spec w)))
                  !! MeasurementScenarioBasedSampleMatchedCount env with
            | Some q => if Qeq_bool q 0 then 0 else q
            | None => 0
            end) + 1)%Q)
  /\ (sampleProvider env request h (prompt request) 2 = [] ->
      measurements (telemetryData (appendix (spec (snd (generateCode env request h cf sf w)))))
      !! MeasurementScenarioBasedSampleMatchedCount env
      = Some ((match measurements (telemetryData (appendix (spec w)))
                     !! MeasurementScenarioBasedSampleMatchedCount env with
               | Some q => if Qeq_bool q 0 then 0 else q
               | None => 0
               end) + 0)%Q)
  /\ (forall k,
         k <> MeasurementScenarioBasedSampleMatchedCount env ->
         measurements (telemetryData (appendix (spec (snd (generateCode env request h cf sf w)))))
         !! k
         = measurements (telemetryData (appendix (spec w))) !! k).
Proof.
  rewrite measurements_after_generateCode. unfold codegen_samples.
  split; [|split].
  - intros Hne. rewrite measurement_add_lookup.
    destruct (sampleProvider env request h (prompt request) 2); [contradiction|reflexivity].
  - intros ->. rewrite measurement_add_lookup. reflexivity.
  - intros k Hk. apply measurement_add_other. congruence.
Qed.

(** A run of X8: two samples are returned and the counter goes from absent
    to 1. *)
Lemma generateCode_counts_matched_samples_witness :
  measurements
    (telemetryData
       (appendix (spec (snd (generateCode (example_env (fun _ _ => []) example_samples)
                               example_request (js "Excel") false []
                               (example_world 0 ∅))))))
  !! "sample-matched-count" = Some 1%Q.
Proof.
  refine (proj1 (generateCode_counts_matched_samples
                   (example_env (fun _ _ => []) example_samples)
                   example_request (js "Excel") false [] (example_world 0 ∅)) _).
  vm_compute. discriminate.
Defined.

(** ** Consecutive calls of [invoke] *)

Lemma invoke_breakdown_null_run env request w :
  try_parse (breakdown_response env request) = None ->
  invoke env request w =
  (Returned Failure,
   {| spec :=
        set_appendix
          (set_measurements
             (measurement_add
                (MeasurementSystemCodegenTaskBreakdownAttemptFailedCount env) 1))
          (spec w);
      trace :=
        trace w ++
        [Progress (js "Identify code-generation scenarios...");
         ChatCompletion (js "copilot-gpt-3.5-turbo") (breakdown_messages env request);
         ConsoleError];
      clockReads := S (clockReads w) |}).
Proof.
  intros Hnull. rewrite invoke_stages, breakdown_stage_failed by (rewrite Hnull; exact I).
  unfold after_breakdown, after_breakdown_request, tick. rewrite Hnull.
  cbn [spec trace clockReads]. rewrite <- app_assoc. reflexivity.
Qed.

Lemma failed_count_after_null env request w :
  try_parse (breakdown_response env request) = None ->
  failed_count env (snd (invoke env request w)) =
  Some ((match failed_count env w with
         | Some q => if Qeq_bool q 0 then 0 else q
         | None => 0
         end) + 1)%Q.
Proof.
  intros Hnull. rewrite (invoke_breakdown_null_run _ _ _ Hnull). unfold failed_count.
  destruct w as [[secs [h cs ctb cf c [ps ms]]] t n].
  cbn [snd spec appendix set_appendix set_measurements telemetryData measurements].
  apply measurement_add_lookup.
Qed.

Lemma invoke_repeatedly_S env request n w :
  invoke_repeatedly env request (S n) w
  = snd (invoke env request (invoke_repeatedly env request n w)).
Proof. reflexivity. Qed.

(** X9: the counter of failed breakdowns counts them: after [n] calls in a
    row whose breakdown response cannot be used, starting without a counter,
    it holds [n], and the chat model was asked [n] times, never for code. *)
Theorem failed_breakdowns_are_counted env request w n :
  fst (userInputBreakdownTaskAsync env request w) = Returned None ->
  failed_count env w = None ->
  failed_count env (invoke_repeatedly env request (S n) w)
  = Some (inject_Z (Z.of_nat (S n)))
  /\ requested_models (trace (invoke_repeatedly env request (S n) w))
     = requested_models (trace w) ++ replicate (S n) (js "copilot-gpt-3.5-turbo").
Proof.
  rewrite userInputBreakdownTaskAsync_run. cbn [fst]. intros [= Hnull] Habsent.
  induction n as [|n [IHc IHt]].
  - rewrite invoke_repeatedly_S. change (invoke_repeatedly env request 0 w) with w. split.
    + rewrite (failed_count_after_null _ _ _ Hnull), Habsent. reflexivity.
    + rewrite (invoke_breakdown_null_run _ _ _ Hnull). cbn [snd trace].
      rewrite requested_models_app. reflexivity.
  - rewrite invoke_repeatedly_S. split.
    + rewrite (failed_count_after_null _ _ _ Hnull), IHc.
      assert (Qeq_bool (inject_Z (Z.of_nat (S n))) 0 = false) as ->.
      { destruct (Qeq_bool _ _) eqn:E; [|reflexivity].
        apply Qeq_bool_eq in E. unfold Qeq, inject_Z in E. cbn [Qnum Qden] in E. lia. }
      unfold inject_Z, Qplus. cbn [Qnum Qden]. f_equal. f_equal. lia.
    + rewrite (invoke_breakdown_null_run _ _ _ Hnull). cbn [snd trace].
      rewrite requested_models_app, IHt. cbn [requested_models omap].
      rewrite <- app_assoc. f_equal.
      symmetry. apply (replicate_S_end (S n)).
Qed.

(** A run of X9: three calls in a row answered in prose. *)
Lemma failed_breakdowns_are_counted_witness :
  failed_count (example_env (fun _ _ => js "I cannot help.") [])
    (invoke_repeatedly (example_env (fun _ _ => js "I cannot help.") []) example_request 3
       (example_world 0 ∅))
  = Some 3%Q.
Proof.
  refine (proj1 (failed_breakdowns_are_counted
                   (example_env (fun _ _ => js "I cannot help.") [])
                   example_request (example_world 0 ∅) 2 _ _));
    vm_compute; reflexivity.
Defined.

(** ** More about the fenced blocks *)

(** X10: the text captured between the fences never holds the closing
    fence: a block that quotes a fence of its own is cut at the inner
    fence. *)
Theorem captured_group_has_no_closing_fence open close s body :
  close <> [] ->
  regexp_match_group1 open close s = Some body ->
  forall x y, body <> x ++ close ++ y.
Proof.
  intros Hclose H x y ->.
  destruct (regexp_match_group1_Some _ _ _ _ H) as (pre & [post Hs] & Hmin).
  destruct (Hmin pre x) as [_ Hlen].
  { exists (y ++ close ++ post). rewrite Hs, <- !app_assoc. reflexivity. }
  specialize (Hlen eq_refl). rewrite !length_app in Hlen.
  destruct close; [contradiction|]. simpl in Hlen. lia.
Qed.

(** A run of X10: the answer quotes a fence inside the block. *)
Lemma captured_group_has_no_closing_fence_witness :
  regexp_match_group1 fence_typescript backticks
    (js "```typescript let s = '```'; ```")
  = Some (js " let s = '")
  /\ forall x y, js " let s = '" <> x ++ backticks ++ y.
Proof.
  assert (regexp_match_group1 fence_typescript backticks
            (js "```typescript let s = '```'; ```")
          = Some (js " let s = '")) as H by (vm_compute; reflexivity).
  split; [exact H|].
  refine (captured_group_has_no_closing_fence fence_typescript backticks _ _ _ H).
  vm_compute. discriminate.
Defined.

Lemma strip_prefix_app p s r t :
  strip_prefix p s = Some r -> strip_prefix p (s ++ t) = Some (r ++ t).
Proof.
  intros H. apply strip_prefix_Some in H. subst s. apply strip_prefix_Some.
  rewrite <- app_assoc. reflexivity.
Qed.

Lemma strip_prefix_None_app p s t :
  strip_prefix p s = None -> (length p <= length s)%nat -> strip_prefix p (s ++ t) = None.
Proof.
  revert s. induction p as [|a p IH]; intros s; simpl; [discriminate|].
  destruct s as [|b s]; simpl; [lia|].
  destruct (a =? b); [|reflexivity]. intros H Hlen. apply IH; [exact H | lia].
Qed.

Lemma lazy_group_then_app close s t body :
  lazy_group_then close s = Some body -> lazy_group_then close (s ++ t) = Some body.
Proof.
  revert body. induction s as [|c r IH]; intros body H.
  - simpl in H. destruct (strip_prefix close []) as [rest|] eqn:E; [|discriminate].
    injection H as <-. apply strip_prefix_Some in E.
    destruct close; [|discriminate]. destruct t; reflexivity.
  - simpl in H. destruct (strip_prefix close (c :: r)) as [rest|] eqn:E.
    + injection H as <-. change ((c :: r) ++ t) with (c :: (r ++ t)). simpl.
      pose proof (strip_prefix_app _ _ _ t E) as E'. simpl in E'. rewrite E'. reflexivity.
    + destruct (lazy_group_then close r) as [b0|] eqn:El; [|discriminate].
      injection H as <-.
      destruct (lazy_group_then_Some _ _ _ El) as [[post Hpost] _].
      assert (strip_prefix close ((c :: r) ++ t) = None) as E'.
      { apply strip_prefix_None_app; [exact E|]. rewrite Hpost. simpl.
        rewrite !length_app. lia. }
      change ((c :: r) ++ t) with (c :: (r ++ t)) in *. simpl. rewrite E'.
      rewrite (IH b0 eq_refl). reflexivity.
Qed.

Lemma match_here_app open close s t body :
  match_here open close s = Some body -> match_here open close (s ++ t) = Some body.
Proof.
  unfold match_here. destruct (strip_prefix open s) as [rest|] eqn:E; [|discriminate].
  rewrite (strip_prefix_app _ _ _ t E). apply lazy_group_then_app.
Qed.

Lemma lazy_group_then_complete close s x y :
  s = x ++ close ++ y -> lazy_group_then close s <> None.
Proof. intros Hs H. exact (lazy_group_then_None _ _ H _ _ Hs). Qed.

Lemma match_here_None_app open close s t pre body :
  match_here open close s = None ->
  block_at open close s pre body -> pre <> [] ->
  match_here open close (s ++ t) = None.
Proof.
  unfold match_here. intros H [post Hs] Hpre.
  destruct (strip_prefix open s) as [rest|] eqn:E.
  - exfalso. apply strip_prefix_Some in E.
    assert (rest = drop (length open) (pre ++ open ++ body) ++ close ++ post) as Hrest.
    { transitivity (drop (length open) s).
      - rewrite E, drop_app_length. reflexivity.
      - rewrite Hs.
        replace (pre ++ open ++ body ++ close ++ post)
          with ((pre ++ open ++ body) ++ close ++ post) by (rewrite <- !app_assoc; reflexivity).
        apply drop_app_le. rewrite !length_app. lia. }
    exact (lazy_group_then_complete _ _ _ _ Hrest H).
  - rewrite strip_prefix_None_app; [reflexivity | exact E |].
    rewrite Hs, !length_app. lia.
Qed.

Lemma regexp_match_group1_app open close s t body :
  regexp_match_group1 open close s = Some body ->
  regexp_match_group1 open close (s ++ t) = Some body.
Proof.
  revert body. induction s as [|c r IH]; intros body H.
  - simpl in H. destruct (match_here open close []) as [b|] eqn:E; [|discriminate].
    injection H as <-. pose proof (match_here_app _ _ _ t _ E) as E'. simpl in E'.
    destruct t; simpl; rewrite E'; reflexivity.
  - simpl in H. change ((c :: r) ++ t) with (c :: (r ++ t)). simpl.
    destruct (match_here open close (c :: r)) as [b|] eqn:E.
    + injection H as <-. pose proof (match_here_app _ _ _ t _ E) as E'.
      change ((c :: r) ++ t) with (c :: (r ++ t)) in E'. rewrite E'. reflexivity.
    + destruct (regexp_match_group1_Some _ _ _ _ H) as (pre & Hb & _).
      assert (match_here open close (c :: (r ++ t)) = None) as E'.
      { apply (match_here_None_app open close (c :: r) t (c :: pre) body E).
        - apply block_at_cons, Hb.
        - discriminate. }
      rewrite E'. apply IH, H.
Qed.

(** X11: once the response holds a closed block, what follows it does not
    matter: more text after the response changes neither the code
    [generateCode] extracts nor the value the breakdown parses. *)
Theorem text_after_first_block_is_ignored env copilotResponse more :
  (forall code,
      extract_code env copilotResponse = Some code ->
      extract_code env (copilotResponse ++ more) = Some code)
  /\ (has_fenced_block fence_json backticks copilotResponse ->
      parse_response (copilotResponse ++ more) = parse_response copilotResponse).
Proof.
  split.
  - unfold extract_code. intros code H.
    destruct (regexp_match_group1 fence_typescript backticks copilotResponse)
      as [body|] eqn:E; [|discriminate].
    rewrite (regexp_match_group1_app _ _ _ more _ E). exact H.
  - unfold parse_response. intros Hb.
    destruct (regexp_match_group1 fence_json backticks copilotResponse) as [body|] eqn:E.
    + rewrite (regexp_match_group1_app _ _ _ more _ E). reflexivity.
    + apply regexp_match_group1_None in E. contradiction.
Qed.

(** A run of X11: an unfinished second block after the first. *)
Lemma text_after_first_block_is_ignored_witness :
  extract_code (example_env (fun _ _ => []) [])
    (js "```typescript let a; ```" ++ js " and ```typescript let b;")
  = Some (js "let a;").
Proof.
  refine (proj1 (text_after_first_block_is_ignored (example_env (fun _ _ => []) [])
                   (js "```typescript let a; ```") (js " and ```typescript let b;"))
            (js "let a;") _).
  vm_compute. reflexivity.
Defined.

(** ** More of the deploy action *)

(** X12: [execute] returns only when the folder is a string, the joined
    working directory exists on disk and the state of the component holds
    an endpoint and a resource id.  It has then archived the working
    directory and handed that archive and the resource id of the state to
    the deployment API, once each and in this order. *)
Theorem deploy_execute_returns_after_deploying env ctx inputs t effects :
  fst (AzureFunctionResource.deploy_execute env ctx inputs t) = Returned effects ->
  exists wd st endpoint resourceId,
    path_join [JStr (AzureFunctionResource.projectPath inputs);
               AzureFunctionResource.folder inputs] = Returned wd
    /\ AzureFunctionResource.fs_pathExists env wd = true
    /\ AzureFunctionResource.envInfo_state ctx !! AzureFunctionResource.name = Some st
    /\ st !! AzureFunctionResource.outputs_endpoint_key = Some endpoint
    /\ st !! AzureFunctionResource.outputs_resourceId_key = Some resourceId
    /\ snd (AzureFunctionResource.deploy_execute env ctx inputs t)
       = t ++ [AzureFunctionResource.LogInfo AzureFunctionResource.DeployingBot;
               AzureFunctionResource.PathExists wd;
               AzureFunctionResource.ZipFolder wd [];
               AzureFunctionResource.AzureWebSiteDeploy (Some resourceId)
                 (AzureFunctionResource.zip_of env wd [])].
Proof.
  intros H.
  destruct (path_join_outcome (AzureFunctionResource.projectPath inputs)
              (AzureFunctionResource.folder inputs)) as [[wd Hj] | Hj].
  2: { rewrite (deploy_execute_bad_folder _ _ _ _ Hj) in H. discriminate H. }
  destruct (AzureFunctionResource.fs_pathExists env wd) eqn:He.
  2: { rewrite (deploy_execute_missing_directory _ _ _ _ _ Hj He) in H. discriminate H. }
  rewrite (deploy_execute_existing_directory _ _ _ _ _ Hj He) in *.
  destruct (AzureFunctionResource.envInfo_state ctx !! AzureFunctionResource.name)
    as [st|]; [|discriminate H].
  destruct (st !! AzureFunctionResource.outputs_endpoint_key) as [ep|] eqn:Eep;
    [|discriminate H].
  destruct (st !! AzureFunctionResource.outputs_resourceId_key) as [rid|] eqn:Erid;
    [|discriminate H].
  exists wd, st, ep, rid. auto 10.
Qed.

(** A run of X12: the directory exists and provisioning left both
    outputs. *)
Lemma deploy_execute_returns_after_deploying_witness :
  exists effects,
    fst (AzureFunctionResource.deploy_execute (example_fs [js "/home/me/app/api"])
           (example_context [("endpoint", js "https://f.example");
                             ("resourceId", js "/sites/f")])
           example_inputs [])
    = Returned effects
    /\ exists wd resourceId,
         snd (AzureFunctionResource.deploy_execute (example_fs [js "/home/me/app/api"])
                (example_context [("endpoint", js "https://f.example");
                                  ("resourceId", js "/sites/f")])
                example_inputs [])
         = [AzureFunctionResource.LogInfo AzureFunctionResource.DeployingBot;
            AzureFunctionResource.PathExists wd;
            AzureFunctionResource.ZipFolder wd [];
            AzureFunctionResource.AzureWebSiteDeploy (Some resourceId)
              (AzureFunctionResource.zip_of (example_fs [js "/home/me/app/api"]) wd [])].
Proof.
  eexists. split; [vm_compute; reflexivity|].
  destruct (deploy_execute_returns_after_deploying (example_fs [js "/home/me/app/api"])
              (example_context [("endpoint", js "https://f.example");
                                ("resourceId", js "/sites/f")])
              example_inputs []
              [{| AzureFunctionResource.type := "service";
                  AzureFunctionResource.effect_name := "azure";
                  AzureFunctionResource.remarks :=
                    js "deploy azure function in folder: /home/me/app/api" |}])
    as (wd & st & ep & rid & _ & _ & _ & _ & _ & Hrun); [vm_compute; reflexivity|].
  exists wd, rid. exact Hrun.
Defined.

(** X13: what [execute] reports when it returns is what [plan] announced:
    the same single effect, naming the same joined directory. *)
Theorem deploy_execute_reports_the_plan env ctx inputs t effects :
  fst (AzureFunctionResource.deploy_execute env ctx inputs t) = Returned effects ->
  deploy_plan inputs = Returned effects.
Proof.
  intros H. unfold deploy_plan.
  destruct (path_join_outcome (AzureFunctionResource.projectPath inputs)
              (AzureFunctionResource.folder inputs)) as [[wd Hj] | Hj].
  2: { rewrite (deploy_execute_bad_folder _ _ _ _ Hj) in H. discriminate H. }
  destruct (AzureFunctionResource.fs_pathExists env wd) eqn:He.
  2: { rewrite (deploy_execute_missing_directory _ _ _ _ _ Hj He) in H. discriminate H. }
  rewrite (deploy_execute_existing_directory _ _ _ _ _ Hj He) in H. rewrite Hj.
  destruct (AzureFunctionResource.envInfo_state ctx !! AzureFunctionResource.name)
    as [st|]; [|discriminate H].
  destruct (st !! AzureFunctionResource.outputs_endpoint_key); [|discriminate H].
  destruct (st !! AzureFunctionResource.outputs_resourceId_key); [|discriminate H].
  exact H.
Qed.

(** A run of X13. *)
Lemma deploy_execute_reports_the_plan_witness :
  deploy_plan example_inputs
  = Returned
      [{| AzureFunctionResource.type := "service";
          AzureFunctionResource.effect_name := "azure";
          AzureFunctionResource.remarks :=
            js "deploy azure function in folder: /home/me/app/api" |}].
Proof.
  refine (deploy_execute_reports_the_plan (example_fs [js "/home/me/app/api"])
            (example_context [("endpoint", js "https://f.example");
                              ("resourceId", js "/sites/f")])
            example_inputs [] _ _).
  vm_compute. reflexivity.
Defined.

(** X14: the endpoint is checked before the resource id: with the working
    directory on disk and a state for the component, a missing endpoint is
    the error reported whether or not the resource id is there, and the
    error of the resource id is only ever reported when an endpoint is
    present. *)
Theorem deploy_reports_endpoint_first env ctx inputs t wd st :
  path_join [JStr (AzureFunctionResource.projectPath inputs);
             AzureFunctionResource.folder inputs] = Returned wd ->
  AzureFunctionResource.fs_pathExists env wd = true ->
  AzureFunctionResource.envInfo_state ctx !! AzureFunctionResource.name = Some st ->
  (st !! AzureFunctionResource.outputs_endpoint_key = None ->
   fst (AzureFunctionResource.deploy_execute env ctx inputs t)
   = Threw (SomethingMissingError AzureFunctionResource.outputs_endpoint_key))
  /\ (fst (AzureFunctionResource.deploy_execute env ctx inputs t)
      = Threw (SomethingMissingError AzureFunctionResource.outputs_resourceId_key) ->
      is_Some (st !! AzureFunctionResource.outputs_endpoint_key)).
Proof.
  intros Hj He Hst.
  rewrite (deploy_execute_existing_directory _ _ _ _ _ Hj He), Hst.
  destruct (st !! AzureFunctionResource.outputs_endpoint_key) as [ep|];
    destruct (st !! AzureFunctionResource.outputs_resourceId_key) as [rid|];
    cbn [fst]; (split; [intros; (reflexivity || discriminate)|]);
    try discriminate; eauto.
Qed.

(** A run of X14: provisioning left nothing. *)
Lemma deploy_reports_endpoint_first_witness :
  fst (AzureFunctionResource.deploy_execute (example_fs [js "/home/me/app/api"])
         (example_context []) example_inputs [])
  = Threw (SomethingMissingError "endpoint").
Proof.
  refine (proj1 (deploy_reports_endpoint_first (example_fs [js "/home/me/app/api"])
                   (example_context []) example_inputs [] (js "/home/me/app/api") ∅ _ _ _) _);
    vm_compute; reflexivity.
Defined.

(** ** The measurements of a call *)










(** ** More of the breakdown stage *)

(** X17: a breakdown result is a rejection as soon as its [shouldContinue]
    is falsy, whatever it is: a result that lacks the property, or holds
    [null], [0] or the empty string there, is rejected like one that holds
    [false], and its data goes to [spec.sections]. *)
Theorem invoke_rejects_on_falsy_shouldContinue env request w v sc d :
  fst (userInputBreakdownTaskAsync env request w) = Returned (Some v) ->
  truthy v = true ->
  js_get v (js "shouldContinue") = Some sc ->
  truthy sc = false ->
  as_string_array (default JUndefined (js_get v (js "data"))) = Returned d ->
  invoke env request w =
  (Returned Rejected,
   {| spec := set_sections d (spec w);
      trace :=
        trace w ++
        [Progress (js "Identify code-generation scenarios...");
         ChatCompletion (js "copilot-gpt-3.5-turbo") (breakdown_messages env request);
         ConsoleLog];
      clockReads := S (clockReads w) |}).
Proof.
  rewrite userInputBreakdownTaskAsync_run. cbn [fst]. intros [= Hv] Htv Hsc Htsc Hd.
  rewrite invoke_stages. run_breakdown_stage. rewrite Hv, Htv.
  cbv beta iota zeta delta [negb bind lift]. rewrite Hsc. cbn [from_option].
  rewrite Htsc, Hd. unfold after_breakdown_request, tick. rewrite Hv.
  cbv beta iota zeta delta [update_spec modify ret]. cbn [spec trace clockReads].
  rewrite <- app_assoc. reflexivity.
Qed.

(** A run of X17: the answer has no [shouldContinue] at all. *)
Lemma invoke_rejects_on_falsy_shouldContinue_witness :
  fst (invoke
         (example_env (fun _ _ => json_text "{'host': 'Excel', 'data': ['Which sheet?']}") [])
         example_request (example_world 0 ∅))
  = Returned Rejected.
Proof.
  rewrite (invoke_rejects_on_falsy_shouldContinue
             (example_env
                (fun _ _ => json_text "{'host': 'Excel', 'data': ['Which sheet?']}") [])
             example_request (example_world 0 ∅)
             (JObj [(js "host", JStr (js "Excel")); (js "data", JArr [JStr (js "Which sheet?")])])
             JUndefined [js "Which sheet?"]);
    [reflexivity | vm_compute; reflexivity..].
Defined.

(** X18: one call of [invoke] sends at most two requests to the chat model:
    always the breakdown request to [copilot-gpt-3.5-turbo], and after it at
    most one request for code, to the model chosen by the complexity left
    in [spec]. *)
Theorem invoke_sends_at_most_two_requests env request w :
  requested_models (trace (snd (invoke env request w)))
  = requested_models (trace w) ++ [js "copilot-gpt-3.5-turbo"]
  \/ requested_models (trace (snd (invoke env request w)))
     = requested_models (trace w)
       ++ [js "copilot-gpt-3.5-turbo";
           codegen_model (complexity (appendix (spec (snd (invoke env request w)))))].
Proof.
  rewrite invoke_stages.
  destruct (breakdown_stage_trace env request (tick w)) as [Ht _].
  destruct (breakdown_stage_cases env request (tick w))
    as [H | [H | [H | (v & h & d & cf & c & Hv & Hacc & Hrun)]]].
  1-3: left; destruct (breakdown_stage env request (tick w)) as [o w'];
       cbn [fst snd] in *; subst o; cbv beta iota; cbn [snd]; rewrite Ht;
       unfold after_breakdown, after_breakdown_request, tick; cbn [trace];
       rewrite <- app_assoc, requested_models_app;
       destruct (try_parse (breakdown_response env request)); reflexivity.
  right. rewrite Hrun, codegen_stage_run.
  cbn [snd spec set_appendix appendix trace].
  rewrite complexity_after_codegen_stage.
  unfold after_accepted_breakdown, after_breakdown, after_breakdown_request, tick.
  cbn [spec trace appendix set_appendix].
  rewrite <- !app_assoc, requested_models_app. f_equal.
  destruct (try_parse (breakdown_response env request));
    destruct (extract_code env _); reflexivity.
Qed.
